(** * tools/update_readme.py: the README index generator

    A shallow embedding of the script catalogue generator of monlor/scripts
    and the properties of its metadata extractor, interpreter detector and
    renderer.

    Python [str] values are modelled as [string]; a character is a code
    point below 256, so the Unicode predicates the program uses
    ([str.isspace], [str.lower], the line boundaries of [str.splitlines])
    are written out for that range.  Library calls whose result only
    depends on the file system are attributes of the [Path] record. *)

From stdpp Require Import gmap strings list sorting pretty.
From Stdlib Require Import Ascii.

Local Set Warnings "-clear-no-such-hyp".

(** ** Python string primitives *)

Module Py.

(** [str.isspace] on one code point below 256. *)
Definition isspace (c : ascii) : bool :=
  match c with
  | "009" | "010" | "011" | "012" | "013"
  | "028" | "029" | "030" | "031" | " " | "133" | "160" => true
  | _ => false
  end%char.

(** The line boundaries of [str.splitlines] below 256. *)
Definition is_linebreak (c : ascii) : bool :=
  match c with
  | "010" | "011" | "012" | "013" | "028" | "029" | "030" | "133" => true
  | _ => false
  end%char.

(** [str.lower] on one code point below 256: A-Z and the Latin-1
    capitals other than the multiplication sign move up by 32. *)
Definition lower_char (c : ascii) : ascii :=
  let n := nat_of_ascii c in
  if ((65 <=? n) && (n <=? 90)) || ((192 <=? n) && (n <=? 222) && negb (n =? 215))
  then ascii_of_nat (n + 32) else c.

Fixpoint lower (s : string) : string :=
  match s with
  | "" => ""
  | String c s' => String (lower_char c) (lower s')
  end.

(** Truth value of a string: [if s:]. *)
Definition truthy (s : string) : bool :=
  match s with "" => false | _ => true end.

(** [s[n:]] and [s[:n]] for [n >= 0]. *)
Fixpoint drop (n : nat) (s : string) : string :=
  match n, s with
  | 0, _ => s
  | S _, "" => ""
  | S n', String _ s' => drop n' s'
  end.

Fixpoint take (n : nat) (s : string) : string :=
  match n, s with
  | 0, _ => ""
  | S _, "" => ""
  | S n', String c s' => String c (take n' s')
  end.

(** [s[:-n]] where [n] is a length: [s[:-0]] is [s[:0]], the empty
    string. *)
Definition drop_last (n : nat) (s : string) : string :=
  match n with
  | 0 => ""
  | _ => take (String.length s - n) s
  end.

(** [s.startswith(p)]. *)
Fixpoint startswith (s p : string) {struct p} : bool :=
  match p with
  | "" => true
  | String a p' =>
      match s with
      | "" => false
      | String b s' => if Ascii.eqb a b then startswith s' p' else false
      end
  end.

(** [s.endswith(p)]. *)
Definition endswith (s p : string) : bool :=
  (String.length p <=? String.length s)
  && String.eqb (drop (String.length s - String.length p) s) p.

(** [sub in s]. *)
Fixpoint contains (s sub : string) : bool :=
  startswith s sub
  || match s with
     | "" => false
     | String _ s' => contains s' sub
     end.

(** [s.count(sub)]: occurrences that do not overlap, from the left.
    [skip] is the number of characters still covered by the last
    occurrence. *)
Fixpoint count_from (skip : nat) (s sub : string) : nat :=
  match s with
  | "" => 0
  | String _ s' =>
      match skip with
      | S k => count_from k s' sub
      | 0 => if startswith s sub
             then S (count_from (String.length sub - 1) s' sub)
             else count_from 0 s' sub
      end
  end.

Definition count (s sub : string) : nat :=
  match sub with
  | "" => S (String.length s)
  | _ => count_from 0 s sub
  end.

(** [s.lstrip()], [s.rstrip()], [s.strip()]. *)
Fixpoint lstrip (s : string) : string :=
  match s with
  | "" => ""
  | String c s' => if isspace c then lstrip s' else s
  end.

Fixpoint rstrip (s : string) : string :=
  match s with
  | "" => ""
  | String c s' =>
      match rstrip s' with
      | "" => if isspace c then "" else String c ""
      | r => String c r
      end
  end.

Definition strip (s : string) : string := rstrip (lstrip s).

(** [s.lstrip(chars)]. *)
Fixpoint mem_char (c : ascii) (chars : string) : bool :=
  match chars with
  | "" => false
  | String d chars' => Ascii.eqb c d || mem_char c chars'
  end.

Fixpoint lstrip_chars (s chars : string) : string :=
  match s with
  | "" => ""
  | String c s' => if mem_char c chars then lstrip_chars s' chars else s
  end.

(** [s.split()]: the maximal runs of characters that are not white
    space. [cur] is the run being read, reversed. *)
Fixpoint split_go (cur : string) (s : string) : list string :=
  match s with
  | "" => match cur with "" => [] | _ => [String.rev cur] end
  | String c s' =>
      if isspace c
      then match cur with
           | "" => split_go "" s'
           | _ => String.rev cur :: split_go "" s'
           end
      else split_go (String c cur) s'
  end.

Definition split (s : string) : list string := split_go "" s.

(** [s.split(sep)] for a separator of one character. *)
Fixpoint split_on_go (sep : ascii) (cur : string) (s : string) : list string :=
  match s with
  | "" => [String.rev cur]
  | String c s' =>
      if Ascii.eqb c sep
      then String.rev cur :: split_on_go sep "" s'
      else split_on_go sep (String c cur) s'
  end.

Definition split_on (sep : ascii) (s : string) : list string :=
  split_on_go sep "" s.

(** [s.splitlines()]: a carriage return followed by a line feed is one
    boundary, and no empty line is produced after the last boundary. *)
Fixpoint splitlines_go (cur : string) (after_cr : bool) (s : string) : list string :=
  match s with
  | "" => match cur with "" => [] | _ => [String.rev cur] end
  | String c s' =>
      if after_cr && Ascii.eqb c "010"%char then splitlines_go cur false s'
      else if is_linebreak c
           then String.rev cur :: splitlines_go "" (Ascii.eqb c "013"%char) s'
           else splitlines_go (String c cur) false s'
  end.

Definition splitlines (s : string) : list string := splitlines_go "" false s.

(** [s.replace(c, by)] for a pattern of one character. *)
Fixpoint replace (c : ascii) (by_ : string) (s : string) : string :=
  match s with
  | "" => ""
  | String d s' =>
      if Ascii.eqb d c then by_ +:+ replace c by_ s'
      else String d (replace c by_ s')
  end.

(** [sep.join(items)]. *)
Fixpoint join (sep : string) (items : list string) : string :=
  match items with
  | [] => ""
  | [x] => x
  | x :: rest => x +:+ sep +:+ join sep rest
  end.

End Py.

(** ** Paths and constants *)

(** A [pathlib.Path] as the program observes it: its [name] and [suffix]
    attributes, [relative_to(REPO_ROOT).as_posix()], [is_dir()], the result
    of [read_text(encoding="utf-8")] and the result of the first
    [readline()] on the opened file.  The two reads are [None] when they
    raise [UnicodeDecodeError]. *)
Record Path := {
  name : string;
  suffix : string;
  relative_posix : string;
  is_dir : bool;
  read_text : option string;
  readline : option string;
}.

Definition REPO_SLUG : string := "monlor/scripts".
Definition RAW_BASE_URL : string :=
  "https://raw.githubusercontent.com/" +:+ REPO_SLUG +:+ "/main".

Definition IGNORED_DIRS : gset string :=
  {[ ".git"; "tools"; ".github"; "__pycache__" ]}.
Definition SUPPORTED_SUFFIXES : gset string :=
  {[ ".sh"; ".bash"; ".py"; ".rb"; ".js"; ".ts"; ".ps1" ]}.
Definition DEFAULT_OS : list string := ["Linux"].
Definition OS_ALIASES : gmap string string :=
  list_to_map
    [ ("linux", "Linux"); ("gnu/linux", "Linux"); ("openwrt", "OpenWrt");
      ("open-wrt", "OpenWrt"); ("lede", "OpenWrt"); ("mac", "macOS");
      ("macos", "macOS"); ("osx", "macOS"); ("darwin", "macOS");
      ("windows", "Windows"); ("win", "Windows") ].

(** ** detect_executor *)

(** The [mapping] dictionary of [detect_executor], in insertion order, which
    is the order its items are iterated in. *)
Definition mapping : list (string * string) :=
  [ ("bash", "bash"); ("sh", "sh"); ("python3", "python3");
    ("python", "python"); ("node", "node"); ("ruby", "ruby");
    ("perl", "perl"); ("pwsh", "pwsh"); ("powershell", "powershell") ].

(** The [for key, value in mapping.items()] loop: the value of the first
    key that occurs in [interpreter]. *)
Fixpoint scan_mapping (items : list (string * string)) (interpreter : string)
  : option string :=
  match items with
  | [] => None
  | (key, value) :: rest =>
      if Py.contains interpreter key then Some value
      else scan_mapping rest interpreter
  end.

(** Lines 88-95: the interpreter named by the stripped first line. *)
Definition shebang_interpreter (first_line : string) : string :=
  if Py.startswith first_line "#!" then
    let shebang := Py.strip (Py.drop 2 first_line) in
    let parts := Py.split shebang in
    match parts with
    | [] => ""
    | part0 :: _ =>
        if Py.endswith part0 "env" && (1 <? length parts)
        then nth 1 parts ""
        else part0
    end
  else "".

(** Lines 116-130: the choice by file extension. *)
Definition executor_of_suffix (suffix : string) : string :=
  if String.eqb suffix ".bash" then "bash"
  else if String.eqb suffix ".sh" then "sh"
  else if String.eqb suffix ".py" then "python3"
  else if String.eqb suffix ".rb" then "ruby"
  else if String.eqb suffix ".js" || String.eqb suffix ".ts" then "node"
  else if String.eqb suffix ".ps1" then "pwsh"
  else "sh".

Definition first_line_of (script_path : Path) : string :=
  match readline script_path with
  | Some line => Py.strip line
  | None => ""
  end.

Definition detect_executor (script_path : Path) : string :=
  let first_line := first_line_of script_path in
  let interpreter := Py.lower (shebang_interpreter first_line) in
  match (if Py.truthy interpreter then scan_mapping mapping interpreter
         else None) with
  | Some value => value
  | None => executor_of_suffix (Py.lower (suffix script_path))
  end.

(** ** extract_script_metadata *)

Fixpoint dedupe_loop (seen : gset string) (items : list string) : list string :=
  match items with
  | [] => []
  | item :: rest =>
      if negb (Py.truthy item) then dedupe_loop seen rest
      else if bool_decide (item ∈ seen) then dedupe_loop seen rest
      else item :: dedupe_loop ({[ item ]} ∪ seen) rest
  end.

Definition _dedupe_preserve_order (items : list string) : list string :=
  dedupe_loop ∅ items.

Definition _normalize_os_label (label : string) : string :=
  let cleaned := Py.strip label in
  if negb (Py.truthy cleaned) then ""
  else
    let key := Py.lower cleaned in
    default cleaned (OS_ALIASES !! key).

(** The local variables of the scanning loop. *)
Record scan_state := {
  description : string;
  os_candidates : list string;
  in_docstring : bool;
  docstring_delimiter : string;
}.

(** How one iteration of the loop ends: [continue] (or the end of the
    body) with the new variables, or [break]. *)
Inductive control :=
| Continue (st : scan_state)
| Break (st : scan_state).

Definition DQ : ascii := "034"%char.
Definition triple_double : string := String DQ (String DQ (String DQ "")).
Definition triple_single : string := "'''".

Definition OS_PREFIXES : list string :=
  [ "supports:"; "supported os:"; "os:"; "platform:"; "platforms:" ].

(** Lines 201-208: the text of a single-line comment, if the line is one. *)
Definition comment_text_of (line : string) : option string :=
  if Py.startswith line "#" then Some (Py.strip (Py.lstrip_chars line "#"))
  else if Py.startswith line "//" then Some (Py.strip (Py.lstrip_chars line "/"))
  else None.

(** Lines 215-219: the labels that an OS declaration adds. *)
Definition declared_labels (comment_text prefix : string) : list string :=
  let os_string := Py.strip (Py.drop (String.length prefix) comment_text) in
  List.filter Py.truthy
    (List.map _normalize_os_label (Py.split_on ","%char os_string)).

Definition set_description (st : scan_state) (d : string) : scan_state :=
  {| description := d; os_candidates := os_candidates st;
     in_docstring := in_docstring st;
     docstring_delimiter := docstring_delimiter st |}.

(** Lines 183-241: the body of [for raw_line in lines]. *)
Definition process_line (st : scan_state) (raw_line : string) : control :=
  let line := Py.strip raw_line in
  if negb (Py.truthy line) then Continue st
  else if Py.startswith line "#!" then Continue st
  else if in_docstring st then
    if Py.endswith line (docstring_delimiter st) then
      let content :=
        Py.strip (Py.drop_last (String.length (docstring_delimiter st)) line) in
      Continue
        {| description :=
             if Py.truthy content && negb (Py.truthy (description st))
             then content else description st;
           os_candidates := os_candidates st;
           in_docstring := false;
           docstring_delimiter := docstring_delimiter st |}
    else
      Continue
        (if negb (Py.truthy (description st)) && Py.truthy line
         then set_description st line else st)
  else
    match comment_text_of line with
    | Some comment_text =>
        let lower_comment := Py.lower comment_text in
        match List.find (Py.startswith lower_comment) OS_PREFIXES with
        | Some prefix =>
            Continue
              {| description := description st;
                 os_candidates :=
                   os_candidates st ++ declared_labels comment_text prefix;
                 in_docstring := in_docstring st;
                 docstring_delimiter := docstring_delimiter st |}
        | None =>
            Continue
              (if Py.truthy comment_text && negb (Py.truthy (description st))
               then set_description st comment_text else st)
        end
    | None =>
        if Py.startswith line triple_double || Py.startswith line triple_single
        then
          let delimiter := Py.take 3 line in
          let remainder := Py.strip (Py.drop 3 line) in
          if Py.endswith remainder delimiter && (3 <? String.length remainder)
          then
            let content :=
              Py.strip (Py.drop_last (String.length delimiter) remainder) in
            Break
              {| description :=
                   if Py.truthy content && negb (Py.truthy (description st))
                   then content else description st;
                 os_candidates := os_candidates st;
                 in_docstring := in_docstring st;
                 docstring_delimiter := delimiter |}
          else
            let description' :=
              if Py.truthy remainder && negb (Py.truthy (description st))
              then remainder else description st in
            if 2 <=? Py.count line delimiter
            then
              Break
                {| description := description';
                   os_candidates := os_candidates st;
                   in_docstring := in_docstring st;
                   docstring_delimiter := delimiter |}
            else
              Continue
                {| description := description';
                   os_candidates := os_candidates st;
                   in_docstring := true;
                   docstring_delimiter := delimiter |}
        else Break st
    end.

(** The [for] loop: it ends at the first [break] or with the last line. *)
Fixpoint scan_lines (st : scan_state) (lines : list string) : scan_state :=
  match lines with
  | [] => st
  | raw_line :: rest =>
      match process_line st raw_line with
      | Continue st' => scan_lines st' rest
      | Break st' => st'
      end
  end.

Definition initial_state : scan_state :=
  {| description := ""; os_candidates := [];
     in_docstring := false; docstring_delimiter := "" |}.

Definition NO_DESCRIPTION : string := "No description available".
Definition UNDECODABLE : string := "Unable to decode file for description".

(** Lines 243-250: the result built from the variables after the loop. *)
Definition finish (st : scan_state) : string * list string :=
  let description :=
    if negb (Py.truthy (description st)) then NO_DESCRIPTION
    else description st in
  let supported_os := _dedupe_preserve_order (os_candidates st) in
  (description,
   match supported_os with
   | [] => DEFAULT_OS
   | _ => supported_os
   end).

Definition extract_script_metadata (path : Path) : string * list string :=
  match read_text path with
  | None => (UNDECODABLE, DEFAULT_OS)
  | Some text => finish (scan_lines initial_state (Py.splitlines text))
  end.

(** ** The catalogue and its rendering *)

Module ScriptInfo.
Record t := {
  name : string;
  path : Path;
  description : string;
  executor : string;
  supported_os : list string;
}.

Definition relative_path (self : t) : string := relative_posix (path self).

Definition github_url (self : t) : string :=
  "https://github.com/" +:+ REPO_SLUG +:+ "/blob/main/" +:+ relative_path self.

Definition remote_command (self : t) : string :=
  let script_path := relative_path self in
  "curl -sSL " +:+ RAW_BASE_URL +:+ "/" +:+ script_path +:+ " | "
  +:+ executor self.
End ScriptInfo.

Module Category.
Record t := {
  name : string;
  path : Path;
  scripts : list ScriptInfo.t;
}.

Definition anchor (self : t) : string :=
  Py.replace " "%char "-" (Py.lower (name self)).
End Category.

(** The order of [Path] objects with the same parent, which [sorted]
    uses: the order of their names, code point by code point. *)
Definition path_le (p q : Path) : Prop := String.le (name p) (name q).

Global Instance path_le_dec : RelDecision path_le.
Proof. intros p q. unfold path_le. apply _. Defined.

(** [sorted(directory.iterdir())]. *)
Definition sorted (entries : list Path) : list Path := merge_sort path_le entries.

Definition NL : string := String "010"%char "".

Section Generator.

(** [Path.iterdir]: the entries of a directory, in the order the file
    system lists them. *)
Variable iterdir : Path → list Path.

(** [textwrap.dedent]. *)
Variable dedent : string → string.

Variable REPO_ROOT : Path.

Definition iter_category_dirs : list Path :=
  List.filter
    (λ entry,
       is_dir entry
       && negb (bool_decide (name entry ∈ IGNORED_DIRS))
       && negb (Py.startswith (name entry) "." || Py.startswith (name entry) "_"))
    (sorted (iterdir REPO_ROOT)).

Definition is_script (entry : Path) : bool :=
  negb (is_dir entry)
  && negb (Py.truthy (suffix entry)
           && negb (bool_decide (suffix entry ∈ SUPPORTED_SUFFIXES))).

Definition script_info (entry : Path) : ScriptInfo.t :=
  let '(description, supported_os) := extract_script_metadata entry in
  let executor := detect_executor entry in
  {| ScriptInfo.name := name entry;
     ScriptInfo.path := entry;
     ScriptInfo.description := description;
     ScriptInfo.executor := executor;
     ScriptInfo.supported_os := supported_os |}.

Definition iter_scripts (category_dir : Path) : list ScriptInfo.t :=
  List.map script_info (List.filter is_script (sorted (iterdir category_dir))).

Definition build_categories : list Category.t :=
  List.map
    (λ directory,
       {| Category.name := name directory;
          Category.path := directory;
          Category.scripts := iter_scripts directory |})
    iter_category_dirs.

Definition render_badges (categories : list Category.t) : string :=
  let total_categories := length categories in
  let total_scripts :=
    foldr Nat.add 0 (List.map (λ c, length (Category.scripts c)) categories) in
  let license_badge :=
    "[![License: MIT](https://img.shields.io/badge/license-MIT-green.svg)](LICENSE)" in
  let scripts_badge :=
    "![Scripts " +:+ pretty total_scripts
    +:+ "](https://img.shields.io/badge/scripts-" +:+ pretty total_scripts
    +:+ "-blue.svg)" in
  let categories_badge :=
    "![Categories " +:+ pretty total_categories
    +:+ "](https://img.shields.io/badge/categories-" +:+ pretty total_categories
    +:+ "-lightgrey.svg)" in
  Py.join " " [license_badge; scripts_badge; categories_badge].

Definition render_toc (categories : list Category.t) : string :=
  let items :=
    List.map
      (λ category,
         let count := length (Category.scripts category) in
         let display_name := Category.name category in
         "- [" +:+ display_name +:+ " (" +:+ pretty count +:+ ")](#"
         +:+ Category.anchor category +:+ ")")
      categories in
  match items with
  | [] => "- No categories detected yet. Add subdirectories and regenerate the README."
  | _ => Py.join NL items
  end.

Definition render_category_section (category : Category.t) : string :=
  let heading := "## " +:+ Category.name category +:+ NL in
  match Category.scripts category with
  | [] =>
      heading
      +:+ "> No scripts in this category yet. Add files and regenerate the README."
      +:+ NL
  | scripts =>
      let table_header :=
        "| Script | Summary | Supported OS | Remote Execution |" +:+ NL
        +:+ "| --- | --- | --- | --- |" in
      let rows :=
        List.map
          (λ script,
             let script_link :=
               "[`" +:+ ScriptInfo.name script +:+ "`]("
               +:+ ScriptInfo.github_url script +:+ ")" in
             let description :=
               Py.replace "|"%char "\|" (ScriptInfo.description script) in
             let os_display := Py.join ", " (ScriptInfo.supported_os script) in
             let curl_cmd := "`" +:+ ScriptInfo.remote_command script +:+ "`" in
             "| " +:+ script_link +:+ " | " +:+ description +:+ " | "
             +:+ os_display +:+ " | " +:+ curl_cmd +:+ " |")
          scripts in
      heading +:+ Py.join NL (table_header :: rows) +:+ NL
  end.

(** The lines of the template of [build_readme] after the sections. *)
Definition README_TAIL : list string :=
  [ "";
    "## Maintenance";
    "";
    "- Each category maps to a subdirectory in the repository root.";
    "- Script descriptions are automatically pulled from the first non-empty comment at the top of each file.";
    "- Add a comment line such as " +:+ String DQ "Supports: Linux, OpenWrt"
      +:+ String DQ " to enumerate compatible operating systems (defaults to Linux when omitted).";
    "- Export script parameters with safe defaults so commands can run non-interactively; document overrides in the script usage output when applicable.";
    "- Remote execution commands automatically select interpreters based on each script's shebang; adjust manually if special tooling is required.";
    "- Regenerate this document with `python tools/update_readme.py`; avoid manual edits to the generated sections.";
    "";
    "## Contribution";
    "";
    "- Clone the repository: `git clone https://github.com/" +:+ REPO_SLUG +:+ ".git`";
    "- Regenerate the index after adding scripts: `python tools/update_readme.py`";
    "- Remote execution example: `curl -sSL " +:+ RAW_BASE_URL +:+ "/path/to/script.sh | sh`";
    "- Describe your script by placing a concise comment on the first non-empty line (for example, `# Sync router IP list`).";
    "- Declare supported systems with a comment such as `# Supports: Linux, OpenWrt`; omit to default to Linux only.";
    "" ].

Definition build_readme (categories : list Category.t) : string :=
  let badges := render_badges categories in
  let toc := render_toc categories in
  let sections :=
    match Py.join NL (List.map render_category_section categories) with
    | "" =>
        "## Category Index" +:+ NL
        +:+ "> No script categories detected yet. Create subdirectories and rerun the generator to populate this section."
        +:+ NL
    | sections => sections
    end in
  let content :=
    Py.join NL
      ([ "# monlor/scripts";
         "";
         badges;
         "";
         "Collection of personal automation scripts organized by category for quick discovery and remote execution.";
         "";
         "## Category Navigation";
         toc;
         "";
         sections ]
       ++ README_TAIL) in
  Py.strip (dedent content) +:+ NL.

(** [main] without [--check]: the text written to the README. *)
Definition generate : string := build_readme build_categories.

End Generator.

(** ** Files used as inputs of examples *)

(** Reading in text mode translates a carriage return, with the line feed
    that follows it if there is one, into a line feed. *)
Fixpoint translate_newlines (after_cr : bool) (s : string) : string :=
  match s with
  | "" => ""
  | String c s' =>
      if after_cr && Ascii.eqb c "010"%char then translate_newlines false s'
      else if Ascii.eqb c "013"%char
           then String "010"%char (translate_newlines true s')
           else String c (translate_newlines false s')
  end.

(** [readline()] in text mode on the characters of a file: the
    characters up to the first line ending, which is a line feed, a
    carriage return or the two in a row, and is returned as a line feed. *)
Fixpoint first_text_line (text : string) : string :=
  match text with
  | "" => ""
  | String c text' =>
      if Ascii.eqb c "010"%char || Ascii.eqb c "013"%char then NL
      else String c (first_text_line text')
  end.

(** A regular file whose bytes decode to the characters [text]; both
    reads are in text mode. *)
Definition text_file (name suffix relative text : string) : Path :=
  {| name := name; suffix := suffix; relative_posix := relative;
     is_dir := false; read_text := Some (translate_newlines false text);
     readline := Some (first_text_line text) |}.

(** A regular file whose content is not valid UTF-8. *)
Definition binary_file (name suffix relative : string) : Path :=
  {| name := name; suffix := suffix; relative_posix := relative;
     is_dir := false; read_text := None; readline := None |}.

Definition directory (name relative : string) : Path :=
  {| name := name; suffix := ""; relative_posix := relative;
     is_dir := true; read_text := None; readline := None |}.

(** [Substring sub s]: the string [sub] occurs in [s]. *)
Definition Substring (sub s : string) : Prop :=
  ∃ pre post, s = pre +:+ sub +:+ post.

(** The first item of a table, in its order, whose key occurs in
    [interpreter]. *)
Definition first_match (items : list (string * string))
    (interpreter key value : string) : Prop :=
  ∃ i, items !! i = Some (key, value)
       ∧ Substring key interpreter
       ∧ ∀ j k v, j < i → items !! j = Some (k, v) → ¬ Substring k interpreter.

(** The interpreter name as the specification words it, for comparison
    with [shebang_interpreter]: the launcher is recognised by the base name
    [env] of the first token, and otherwise the base name of the first
    token is the interpreter. *)
Definition basename (token : string) : string :=
  List.last (Py.split_on "/"%char token) "".

Definition interpreter_by_basename (first_line : string) : string :=
  if Py.startswith first_line "#!" then
    match Py.split (Py.strip (Py.drop 2 first_line)) with
    | [] => ""
    | [part0] => basename part0
    | part0 :: part1 :: _ =>
        if String.eqb (basename part0) "env" then part1 else basename part0
    end
  else "".

Definition detect_executor_by_basename (script_path : Path) : string :=
  let interpreter :=
    Py.lower (interpreter_by_basename (first_line_of script_path)) in
  match (if Py.truthy interpreter then scan_mapping mapping interpreter
         else None) with
  | Some value => value
  | None => executor_of_suffix (Py.lower (suffix script_path))
  end.

(** The text of [s] before the first occurrence of [sub], all of [s] when
    there is none: for the remainder of a line that opens a docstring, the
    content between the opening delimiter and the next one. *)
Fixpoint text_before (s sub : string) : string :=
  if Py.startswith s sub then ""
  else match s with
       | "" => ""
       | String c s' => String c (text_before s' sub)
       end.

(** A non-empty string whose last character is no white space, as the two
    docstring delimiters are: stripping cannot cut into an occurrence. *)
Fixpoint ends_with_non_space (s : string) : bool :=
  match s with
  | "" => false
  | String c "" => negb (Py.isspace c)
  | String _ s' => ends_with_non_space s'
  end.

(** The lines that reach the final [break] of the loop body when no
    docstring is open: not blank, no comment, no opening of a docstring. *)
Definition is_code_line (raw_line : string) : bool :=
  let line := Py.strip raw_line in
  Py.truthy line
  && negb (Py.startswith line "#")
  && negb (Py.startswith line "//")
  && negb (Py.startswith line triple_double)
  && negb (Py.startswith line triple_single).

(** ** write_readme and main *)

(** The file [README.md] on disk: missing, stored with the characters
    [content], or stored with bytes that are not valid UTF-8. *)
Inductive disk_file :=
| Missing
| Stored (content : string)
| Undecodable.

(** [README_PATH.exists()] and [README_PATH.read_text(encoding="utf-8")];
    the read is [None] when it raises [UnicodeDecodeError]. *)
Definition disk_exists (file : disk_file) : bool :=
  match file with Missing => false | _ => true end.

Definition disk_read_text (file : disk_file) : option string :=
  match file with
  | Stored content => Some (translate_newlines false content)
  | _ => None
  end.

(** How a run of [main] ends: with one line printed and the README as it
    is then, or with the [UnicodeDecodeError] of the read in check mode. *)
Inductive outcome :=
| Printed (message : string) (README : disk_file)
| UnicodeDecodeError.

Section Main.

Variable iterdir : Path → list Path.
Variable dedent : string → string.
Variable REPO_ROOT : Path.

(** [README_PATH.write_text(content, encoding="utf-8")], where the line
    separator is the line feed. *)
Definition write_readme (content : string) (README : disk_file) : disk_file :=
  Stored content.

(** [main], with [check] the value of [args.check]. *)
Definition main (check : bool) (README : disk_file) : outcome :=
  let categories := build_categories iterdir REPO_ROOT in
  let content := build_readme dedent categories in
  if check then
    match (if disk_exists README then disk_read_text README else Some "") with
    | None => UnicodeDecodeError
    | Some current =>
        if String.eqb current content
        then Printed "README is up to date." README
        else Printed "README needs regeneration. Run without --check to update it."
               README
    end
  else Printed "README generated." (write_readme content README).

End Main.

(** ** Notions used to state properties of the scanning loop *)

(** The variables of the loop after one iteration, however it ends. *)
Definition state_of (c : control) : scan_state :=
  match c with Continue st | Break st => st end.

(** The lines the loop passes over in every state: blank lines and [#!]
    lines. *)
Definition is_skipped_line (raw_line : string) : bool :=
  let line := Py.strip raw_line in
  negb (Py.truthy line) || Py.startswith line "#!".

(** Every character of [s] satisfies [P]. *)
Fixpoint all_chars (P : ascii → bool) (s : string) : bool :=
  match s with
  | "" => true
  | String c s' => P c && all_chars P s'
  end.

(** No character of [s] is a line boundary of [str.splitlines]. *)
Definition no_linebreak (s : string) : bool :=
  all_chars (λ c, negb (Py.is_linebreak c)) s.

(** No character of [s] is the comma that separates the labels of an OS
    declaration. *)
Definition no_comma (s : string) : bool :=
  all_chars (λ c, negb (Ascii.eqb c ","%char)) s.

(** What is known of a collected label. *)
Definition clean_label (label : string) : Prop :=
  no_linebreak label = true ∧ no_comma label = true
  ∧ Py.strip label = label ∧ label ≠ "".

(** What the loop keeps true of its variables on lines without line
    boundary. *)
Definition clean_state (st : scan_state) : Prop :=
  no_linebreak (description st) = true
  ∧ Py.strip (description st) = description st
  ∧ Forall clean_label (os_candidates st).

(** The canonical names of the alias table. *)
Definition CANONICAL_OS : list string := ["Linux"; "OpenWrt"; "macOS"; "Windows"].

(** ** Facts about the string primitives *)

Local Arguments Ascii.eqb : simpl never.
Local Arguments String.eqb : simpl never.

Section string_facts.

Lemma truthy_false s : Py.truthy s = false ↔ s = "".
Proof. destruct s; split; intros; done. Qed.

Lemma truthy_true s : Py.truthy s = true ↔ s ≠ "".
Proof. destruct s; split; intros; done. Qed.

Lemma startswith_refl s : Py.startswith s s = true.
Proof. induction s as [|c s IH]; simpl; [done|]. by rewrite Ascii.eqb_refl. Qed.

Lemma startswith_app s p : Py.startswith (p +:+ s) p = true.
Proof. induction p as [|c p IH]; simpl; [by destruct s|]. by rewrite Ascii.eqb_refl. Qed.

Lemma startswith_split s p :
  Py.startswith s p = true →
  s = p +:+ Py.drop (String.length p) s ∧ Py.take (String.length p) s = p.
Proof.
  revert s. induction p as [|a p IH]; intros [|b s] H; simpl in *; try done.
  destruct (Ascii.eqb a b) eqn:E; [|done].
  apply Ascii.eqb_eq in E as ->. destruct (IH s H) as [Hs Ht].
  split; [|by rewrite Ht].
  change (String b s = String b (p +:+ Py.drop (String.length p) s)).
  by rewrite <- Hs.
Qed.

(** A line that starts with [#!] starts with [#]. *)
Lemma startswith_hash_bang line :
  Py.startswith line "#" = false → Py.startswith line "#!" = false.
Proof.
  destruct line as [|c line]; simpl; [done|].
  by destruct (Ascii.eqb "#" c).
Qed.

End string_facts.

Section scanning_facts.

Lemma process_blank st raw :
  Py.strip raw = "" → process_line st raw = Continue st.
Proof. intros H. unfold process_line. by rewrite H. Qed.

Lemma process_shebang st raw :
  Py.startswith (Py.strip raw) "#!" = true → process_line st raw = Continue st.
Proof.
  intros H. unfold process_line. rewrite H.
  by destruct (Py.truthy (Py.strip raw)).
Qed.

(** A line of code: not blank, not a comment, not the start of a
    docstring. *)
Lemma process_code st raw :
  in_docstring st = false →
  Py.truthy (Py.strip raw) = true →
  Py.startswith (Py.strip raw) "#" = false →
  Py.startswith (Py.strip raw) "//" = false →
  Py.startswith (Py.strip raw) triple_double = false →
  Py.startswith (Py.strip raw) triple_single = false →
  process_line st raw = Break st.
Proof.
  intros Hdoc Ht Hh Hs Hd Hq. unfold process_line, comment_text_of.
  by rewrite Ht, (startswith_hash_bang _ Hh), Hdoc, Hh, Hs, Hd, Hq.
Qed.

End scanning_facts.

(** Claim C10.  A line whose stripped form begins with [#!] is skipped by
    the loop body in every state, an open docstring included: the
    iteration continues with all variables unchanged, so the line is not
    the description, adds no OS label, does not close the docstring and
    does not end the scan.  Removing all such lines from a file never
    changes the outcome of the scan. *)
Theorem shebang_lines_skipped_in_every_state :
  (∀ st raw_line,
     Py.startswith (Py.strip raw_line) "#!" = true →
     process_line st raw_line = Continue st)
  ∧ (∀ st lines,
       scan_lines st
         (List.filter (λ raw, negb (Py.startswith (Py.strip raw) "#!")) lines)
       = scan_lines st lines).
Proof.
  split; [apply process_shebang|].
  intros st lines. revert st.
  induction lines as [|raw lines IH]; intros st; [done|].
  cbn [List.filter scan_lines].
  destruct (Py.startswith (Py.strip raw) "#!") eqn:E; cbn [negb scan_lines].
  - rewrite (process_shebang st raw E). apply IH.
  - destruct (process_line st raw); [apply IH|done].
Qed.

(** ** The interpreter detector *)

Section detector_facts.

Lemma no_shebang_interpreter first_line :
  Py.startswith first_line "#!" = false → shebang_interpreter first_line = "".
Proof. intros H. unfold shebang_interpreter. by rewrite H. Qed.

Lemma detect_without_shebang script_path :
  Py.startswith (first_line_of script_path) "#!" = false →
  detect_executor script_path
  = executor_of_suffix (Py.lower (suffix script_path)).
Proof.
  intros H. unfold detect_executor. by rewrite (no_shebang_interpreter _ H).
Qed.

Lemma executor_of_unknown_suffix sfx :
  sfx ∉ [".bash"; ".py"; ".rb"; ".js"; ".ts"; ".ps1"] →
  executor_of_suffix sfx = "sh".
Proof.
  intros H. unfold executor_of_suffix.
  repeat match goal with
         | |- context [String.eqb sfx ?x] =>
             destruct (String.eqb_spec sfx x) as [->|_];
             [exfalso; apply H; set_solver|]
         end.
  simpl. by destruct (String.eqb sfx ".sh").
Qed.

End detector_facts.

(** Claim C2.  The detector returns [python3] when the stripped first line
    is [#!/usr/bin/env python3] and [bash] when it is [#!/bin/bash]; when
    the first line is no shebang it returns [pwsh] for the extension
    [.ps1], [ruby] for [.rb], and [sh] for an extension, or the absence of
    one, that the extension table does not send elsewhere. *)
Theorem detect_executor_examples (script_path : Path) :
  (first_line_of script_path = "#!/usr/bin/env python3" →
   detect_executor script_path = "python3")
  ∧ (first_line_of script_path = "#!/bin/bash" →
     detect_executor script_path = "bash")
  ∧ (Py.startswith (first_line_of script_path) "#!" = false →
     Py.lower (suffix script_path) = ".ps1" →
     detect_executor script_path = "pwsh")
  ∧ (Py.startswith (first_line_of script_path) "#!" = false →
     Py.lower (suffix script_path) = ".rb" →
     detect_executor script_path = "ruby")
  ∧ (Py.startswith (first_line_of script_path) "#!" = false →
     Py.lower (suffix script_path) ∉ [".bash"; ".py"; ".rb"; ".js"; ".ts"; ".ps1"] →
     detect_executor script_path = "sh").
Proof.
  repeat split.
  - intros H. unfold detect_executor. rewrite H. by vm_compute.
  - intros H. unfold detect_executor. rewrite H. by vm_compute.
  - intros H Hs. rewrite (detect_without_shebang _ H), Hs. by vm_compute.
  - intros H Hs. rewrite (detect_without_shebang _ H), Hs. by vm_compute.
  - intros H Hs. rewrite (detect_without_shebang _ H).
    by apply executor_of_unknown_suffix.
Qed.

Lemma detect_executor_examples_witness :
  detect_executor (text_file "run.py" ".py" "net/run.py"
                     ("#!/usr/bin/env python3" +:+ NL +:+ "print(1)")) = "python3"
  ∧ detect_executor (text_file "run" "" "net/run"
                       ("#!/bin/bash" +:+ NL +:+ "echo 1")) = "bash"
  ∧ detect_executor (text_file "run.ps1" ".ps1" "net/run.ps1" "Get-Date") = "pwsh"
  ∧ detect_executor (text_file "run.rb" ".rb" "net/run.rb" "puts 1") = "ruby"
  ∧ detect_executor (text_file "run.txt" ".txt" "net/run.txt" "echo 1") = "sh"
  ∧ detect_executor (text_file "run" "" "net/run" "echo 1") = "sh".
Proof.
  refine (conj _ (conj _ (conj _ (conj _ (conj _ _))))).
  - by apply (proj1 (detect_executor_examples _)).
  - by apply (proj1 (proj2 (detect_executor_examples _))).
  - by apply (proj1 (proj2 (proj2 (detect_executor_examples _)))).
  - by apply (proj1 (proj2 (proj2 (proj2 (detect_executor_examples _))))).
  - apply (proj2 (proj2 (proj2 (proj2 (detect_executor_examples _))))); [done|].
    apply (proj1 (bool_decide_eq_false _)). reflexivity.
  - apply (proj2 (proj2 (proj2 (proj2 (detect_executor_examples _))))); [done|].
    apply (proj1 (bool_decide_eq_false _)). reflexivity.
Defined.

(** Claim C8.  A decoding failure is recovered for each file: the
    extractor returns the error description with the default OS list, the
    detector takes the first line to be empty and chooses by extension,
    and the record of the file is built all the same. *)
Theorem decoding_failure_is_recovered (path : Path) :
  (read_text path = None →
   extract_script_metadata path = (UNDECODABLE, ["Linux"]))
  ∧ (readline path = None →
     first_line_of path = ""
     ∧ detect_executor path = executor_of_suffix (Py.lower (suffix path)))
  ∧ (read_text path = None → readline path = None →
     script_info path
     = {| ScriptInfo.name := name path;
          ScriptInfo.path := path;
          ScriptInfo.description := UNDECODABLE;
          ScriptInfo.executor := executor_of_suffix (Py.lower (suffix path));
          ScriptInfo.supported_os := ["Linux"] |}).
Proof.
  assert (Hd : readline path = None →
               first_line_of path = ""
               ∧ detect_executor path = executor_of_suffix (Py.lower (suffix path))).
  { intros H. assert (Hf : first_line_of path = "").
    { unfold first_line_of. by rewrite H. }
    split; [done|]. apply detect_without_shebang. by rewrite Hf. }
  assert (He : read_text path = None →
               extract_script_metadata path = (UNDECODABLE, ["Linux"])).
  { intros H. unfold extract_script_metadata. by rewrite H. }
  repeat split; try tauto.
  intros H1 H2. unfold script_info. rewrite (He H1).
  by rewrite (proj2 (Hd H2)).
Qed.

Lemma decoding_failure_is_recovered_witness :
  extract_script_metadata (binary_file "blob.sh" ".sh" "net/blob.sh")
  = ("Unable to decode file for description", ["Linux"])
  ∧ detect_executor (binary_file "blob.py" ".py" "net/blob.py") = "python3"
  ∧ ScriptInfo.executor (script_info (binary_file "blob" "" "net/blob")) = "sh".
Proof.
  split; [|split].
  - by apply (proj1 (decoding_failure_is_recovered _)).
  - by rewrite (proj2 (proj1 (proj2 (decoding_failure_is_recovered
                                        (binary_file "blob.py" ".py" "net/blob.py")))
                         eq_refl)).
  - by rewrite (proj2 (proj2 (decoding_failure_is_recovered
                                 (binary_file "blob" "" "net/blob")))
                  eq_refl eq_refl).
Defined.

(** ** The metadata extractor: comments *)

Section comment_facts.

Lemma process_code_line st raw :
  in_docstring st = false → is_code_line raw = true →
  process_line st raw = Break st.
Proof.
  unfold is_code_line. intros Hdoc H.
  repeat (apply andb_prop in H as [H ?]).
  apply process_code; try done; by apply negb_true_iff.
Qed.

(** Two prefixes of one string are prefixes of each other, one way or
    the other. *)
Lemma startswith_comparable s p q :
  Py.startswith s p = true → Py.startswith s q = true →
  Py.startswith q p = true ∨ Py.startswith p q = true.
Proof.
  revert s q. induction p as [|a p IH]; intros s q Hp Hq; [by left|].
  destruct q as [|b q]; [by right|].
  destruct s as [|c s]; [done|]. simpl in *.
  destruct (Ascii.eqb a c) eqn:Ea; [|done].
  destruct (Ascii.eqb b c) eqn:Eb; [|done].
  apply Ascii.eqb_eq in Ea as ->. apply Ascii.eqb_eq in Eb as ->.
  rewrite Ascii.eqb_refl. eauto.
Qed.

(** No OS prefix is a prefix of another one, so the prefix loop finds
    the only prefix that matches. *)
Lemma find_os_prefix s prefix :
  prefix ∈ OS_PREFIXES → Py.startswith s prefix = true →
  List.find (Py.startswith s) OS_PREFIXES = Some prefix.
Proof.
  intros Hin H. unfold OS_PREFIXES in *.
  repeat (apply elem_of_cons in Hin as [->|Hin]);
    [..|by apply elem_of_nil in Hin];
    cbn [List.find];
    repeat match goal with
           | |- context [if Py.startswith s ?q then _ else _] =>
               destruct (Py.startswith s q) eqn:?
           end;
    try done;
    match goal with
    | H1 : Py.startswith s ?p = true, H2 : Py.startswith s ?q = true |- _ =>
        destruct (startswith_comparable s p q H1 H2) as [E|E];
        vm_compute in E; discriminate E
    end.
Qed.

(** The comment text of a line that starts with [#!] starts with [!]. *)
Lemma shebang_comment_text line text :
  Py.startswith line "#!" = true → comment_text_of line = Some text →
  ∃ t, text = String "!" t.
Proof.
  intros H Hc. destruct line as [|c [|c' r]]; simpl in H; try done.
  { by destruct (Ascii.eqb "#" c). }
  destruct (Ascii.eqb_spec "#" c) as [<-|]; [|done].
  destruct (Ascii.eqb_spec "!" c') as [<-|]; [|done].
  unfold comment_text_of in Hc.
  change (Some (Py.rstrip (String "!" r)) = Some text) in Hc.
  injection Hc as <-. simpl. destruct (Py.rstrip r); eauto.
Qed.

Lemma shebang_text_no_prefix t prefix :
  prefix ∈ OS_PREFIXES →
  Py.startswith (Py.lower (String "!" t)) prefix = false.
Proof.
  intros Hin. unfold OS_PREFIXES in Hin.
  repeat (apply elem_of_cons in Hin as [->|Hin]);
    [..|by apply elem_of_nil in Hin]; reflexivity.
Qed.

End comment_facts.

(** Claim C7.  Outside a docstring, a comment line whose lower-cased text
    starts with one of the OS-declaration prefixes only adds the labels it
    declares: the description is left as it was, also when the line
    declares no label at all, and the loop continues with the next line.
    A first line [# Supports:] therefore leaves no trace in the result. *)
Theorem os_declaration_is_no_description :
  (∀ st raw_line comment_text prefix,
     in_docstring st = false →
     comment_text_of (Py.strip raw_line) = Some comment_text →
     prefix ∈ OS_PREFIXES →
     Py.startswith (Py.lower comment_text) prefix = true →
     process_line st raw_line
     = Continue
         {| description := description st;
            os_candidates :=
              os_candidates st ++ declared_labels comment_text prefix;
            in_docstring := false;
            docstring_delimiter := docstring_delimiter st |})
  ∧ declared_labels "Supports:" "supports:" = []
  ∧ (∀ path text rest,
       read_text path = Some text →
       Py.splitlines text = "# Supports:" :: rest →
       extract_script_metadata path = finish (scan_lines initial_state rest)).
Proof.
  assert (Hstep : ∀ st raw_line comment_text prefix,
     in_docstring st = false →
     comment_text_of (Py.strip raw_line) = Some comment_text →
     prefix ∈ OS_PREFIXES →
     Py.startswith (Py.lower comment_text) prefix = true →
     process_line st raw_line
     = Continue
         {| description := description st;
            os_candidates :=
              os_candidates st ++ declared_labels comment_text prefix;
            in_docstring := false;
            docstring_delimiter := docstring_delimiter st |}).
  { intros st raw_line comment_text prefix Hdoc Hc Hin Hp.
    unfold process_line.
    destruct (Py.truthy (Py.strip raw_line)) eqn:Ht.
    2:{ apply truthy_false in Ht. rewrite Ht in Hc. done. }
    destruct (Py.startswith (Py.strip raw_line) "#!") eqn:Hs.
    { destruct (shebang_comment_text _ _ Hs Hc) as [t ->].
      by rewrite (shebang_text_no_prefix t prefix Hin) in Hp. }
    cbn [negb]. rewrite Hdoc, Hc. cbv zeta.
    by rewrite (find_os_prefix _ _ Hin Hp). }
  split; [exact Hstep|]. split; [reflexivity|].
  intros path text rest Hr Hl. unfold extract_script_metadata.
  rewrite Hr, Hl. cbn [scan_lines].
  by rewrite (Hstep initial_state "# Supports:" "Supports:" "supports:"
                eq_refl eq_refl ltac:(set_solver) eq_refl).
Qed.

Lemma os_declaration_is_no_description_witness :
  process_line initial_state "// Platform: lede, Darwin"
  = Continue
      {| description := ""; os_candidates := ["OpenWrt"; "macOS"];
         in_docstring := false; docstring_delimiter := "" |}
  ∧ extract_script_metadata
      (text_file "sync.sh" ".sh" "net/sync.sh"
         ("# Supports:" +:+ NL +:+ "# Sync router IP list"))
    = ("Sync router IP list", ["Linux"]).
Proof.
  split.
  - apply (proj1 os_declaration_is_no_description initial_state
             "// Platform: lede, Darwin" "Platform: lede, Darwin" "platform:");
      [reflexivity | reflexivity | unfold OS_PREFIXES; repeat constructor
      | reflexivity].
  - by rewrite (proj2 (proj2 os_declaration_is_no_description)
                  (text_file "sync.sh" ".sh" "net/sync.sh"
                     ("# Supports:" +:+ NL +:+ "# Sync router IP list"))
                  _ ["# Sync router IP list"] eq_refl eq_refl).
Defined.

(** Claim C1.  A file whose lines are the comment [# Sync router IP list],
    a blank line, the comment [# Supports: Linux, OpenWrt] and then code
    has the description [Sync router IP list] and the OS list
    [Linux; OpenWrt], whatever follows the first line of code. *)
Theorem sync_router_scenario (path : Path) (text code : string) (rest : list string) :
  read_text path = Some text →
  Py.splitlines text
  = "# Sync router IP list" :: "" :: "# Supports: Linux, OpenWrt" :: code :: rest →
  is_code_line code = true →
  extract_script_metadata path = ("Sync router IP list", ["Linux"; "OpenWrt"]).
Proof.
  intros Hr Hl Hcode. unfold extract_script_metadata. rewrite Hr, Hl.
  set (st1 := {| description := "Sync router IP list"; os_candidates := [];
                 in_docstring := false; docstring_delimiter := "" |}).
  set (st3 := {| description := "Sync router IP list";
                 os_candidates := ["Linux"; "OpenWrt"];
                 in_docstring := false; docstring_delimiter := "" |}).
  assert (H1 : process_line initial_state "# Sync router IP list" = Continue st1)
    by reflexivity.
  assert (H2 : process_line st1 "" = Continue st1) by reflexivity.
  assert (H3 : process_line st1 "# Supports: Linux, OpenWrt" = Continue st3)
    by reflexivity.
  cbn [scan_lines]. rewrite H1, H2, H3.
  by rewrite (process_code_line st3 code eq_refl Hcode).
Qed.

Lemma sync_router_scenario_witness :
  extract_script_metadata
    (text_file "sync.sh" ".sh" "net/sync.sh"
       ("# Sync router IP list" +:+ NL +:+ NL +:+ "# Supports: Linux, OpenWrt"
        +:+ NL +:+ "set -e" +:+ NL +:+ "# Supports: Windows" +:+ NL))
  = ("Sync router IP list", ["Linux"; "OpenWrt"]).
Proof.
  eapply (sync_router_scenario _ _ "set -e" ["# Supports: Windows"]);
    reflexivity.
Defined.

(** ** The metadata extractor: OS labels *)

Section dedupe_facts.

Lemma elem_of_dedupe_loop seen items x :
  x ∈ dedupe_loop seen items ↔ x ∈ items ∧ x ≠ "" ∧ x ∉ seen.
Proof.
  revert seen. induction items as [|item items IH]; intros seen; simpl.
  { set_solver. }
  destruct (Py.truthy item) eqn:Ht; simpl.
  - apply truthy_true in Ht. case_bool_decide as Hs.
    + rewrite IH. set_solver.
    + rewrite elem_of_cons, IH. destruct (decide (x = item)); set_solver.
  - apply truthy_false in Ht. rewrite IH. set_solver.
Qed.

Lemma NoDup_dedupe_loop seen items : NoDup (dedupe_loop seen items).
Proof.
  revert seen. induction items as [|item items IH]; intros seen; simpl.
  { constructor. }
  destruct (Py.truthy item); simpl; [|apply IH].
  case_bool_decide; [apply IH|].
  constructor; [|apply IH]. rewrite elem_of_dedupe_loop. set_solver.
Qed.

(** The loop seen from its last iteration: [result.append(item)] unless
    the item is empty or was seen before. *)
Lemma dedupe_loop_snoc seen items x :
  dedupe_loop seen (items ++ [x])
  = if bool_decide (x = "" ∨ x ∈ seen ∨ x ∈ items)
    then dedupe_loop seen items
    else dedupe_loop seen items ++ [x].
Proof.
  revert seen. induction items as [|item items IH]; intros seen; simpl.
  - destruct (Py.truthy x) eqn:Ht; simpl.
    + apply truthy_true in Ht.
      repeat case_bool_decide; try done; set_solver.
    + apply truthy_false in Ht. case_bool_decide; [done|]. tauto.
  - destruct (Py.truthy item) eqn:Ht; simpl.
    + apply truthy_true in Ht. case_bool_decide as Hs.
      * rewrite IH. repeat case_bool_decide; try done; set_solver.
      * rewrite IH. destruct (decide (x = item));
          repeat case_bool_decide; try done; set_solver.
    + apply truthy_false in Ht. subst item. rewrite IH.
      repeat case_bool_decide; try done; set_solver.
Qed.

Lemma declared_labels_truthy comment_text prefix :
  Forall (λ label, label ≠ "") (declared_labels comment_text prefix).
Proof.
  unfold declared_labels. apply Forall_forall. intros label Hin.
  apply list_elem_of_In, filter_In in Hin as [_ Hin]. by apply truthy_true.
Qed.

End dedupe_facts.

(** Claim C4.  The labels of an OS declaration are normalized through the
    alias table and then de-duplicated in first-seen order: the result has
    no duplicate and no empty label, holds the non-empty labels that were
    collected, and each label is appended at its first occurrence only.
    The declaration [Linux, linux, OpenWrt] collects
    [Linux; Linux; OpenWrt] and yields exactly [Linux; OpenWrt]. *)
Theorem os_labels_deduplicated_in_first_seen_order :
  (∀ items, NoDup (_dedupe_preserve_order items))
  ∧ (∀ items x, x ∈ _dedupe_preserve_order items ↔ x ∈ items ∧ x ≠ "")
  ∧ (∀ items x,
       _dedupe_preserve_order (items ++ [x])
       = if bool_decide (x = "" ∨ x ∈ items)
         then _dedupe_preserve_order items
         else _dedupe_preserve_order items ++ [x])
  ∧ (∀ label canonical,
       OS_ALIASES !! Py.lower (Py.strip label) = Some canonical →
       Py.strip label ≠ "" →
       _normalize_os_label label = canonical)
  ∧ declared_labels "Supports: Linux, linux, OpenWrt" "supports:"
    = ["Linux"; "Linux"; "OpenWrt"]
  ∧ (∀ path text,
       read_text path = Some text →
       Py.splitlines text = ["# Supports: Linux, linux, OpenWrt"] →
       (extract_script_metadata path).2 = ["Linux"; "OpenWrt"]).
Proof.
  split; [|split; [|split; [|split; [|split]]]].
  - intros items. apply NoDup_dedupe_loop.
  - intros items x. unfold _dedupe_preserve_order.
    rewrite elem_of_dedupe_loop. set_solver.
  - intros items x. unfold _dedupe_preserve_order. rewrite dedupe_loop_snoc.
    repeat case_bool_decide; try done; set_solver.
  - intros label canonical Hl Hne. unfold _normalize_os_label.
    apply truthy_true in Hne. rewrite Hne. simpl. by rewrite Hl.
  - reflexivity.
  - intros path text Hr Hl. unfold extract_script_metadata. by rewrite Hr, Hl.
Qed.

Lemma os_labels_deduplicated_in_first_seen_order_witness :
  _normalize_os_label " LEDE " = "OpenWrt"
  ∧ (extract_script_metadata
       (text_file "sync.sh" ".sh" "net/sync.sh"
          "# Supports: Linux, linux, OpenWrt")).2
    = ["Linux"; "OpenWrt"].
Proof.
  split.
  - by apply (proj1 (proj2 (proj2 (proj2
                os_labels_deduplicated_in_first_seen_order)))).
  - by eapply (proj2 (proj2 (proj2 (proj2 (proj2
                os_labels_deduplicated_in_first_seen_order))))).
Defined.

(** ** The metadata extractor: the result *)

Section result_facts.

(** Every label the loop collects is non-empty. *)
Lemma process_line_candidates st raw :
  Forall (λ label, label ≠ "") (os_candidates st) →
  match process_line st raw with
  | Continue st' | Break st' => Forall (λ label, label ≠ "") (os_candidates st')
  end.
Proof.
  intros H. unfold process_line, set_description.
  repeat case_match; simplify_eq/=; try done.
  apply Forall_app. split; [done|apply declared_labels_truthy].
Qed.

Lemma scan_lines_candidates st lines :
  Forall (λ label, label ≠ "") (os_candidates st) →
  Forall (λ label, label ≠ "") (os_candidates (scan_lines st lines)).
Proof.
  revert st. induction lines as [|raw lines IH]; intros st H; [done|].
  cbn [scan_lines]. pose proof (process_line_candidates st raw H) as Hp.
  destruct (process_line st raw); [by apply IH|done].
Qed.

Lemma dedupe_nonempty items :
  items ≠ [] → Forall (λ label, label ≠ "") items →
  _dedupe_preserve_order items ≠ [].
Proof.
  destruct items as [|item items]; [done|]. intros _ H Hnil.
  apply Forall_cons in H as [Hitem _].
  assert (Hin : item ∈ _dedupe_preserve_order (item :: items)).
  { unfold _dedupe_preserve_order. apply elem_of_dedupe_loop. set_solver. }
  rewrite Hnil in Hin. by apply elem_of_nil in Hin.
Qed.

End result_facts.

(** Claim C3, as the code has it.  For every decodable text the description
    is non-empty: it is the sentinel [No description available] whenever
    the loop captured no description, and the captured text otherwise.
    The OS list is non-empty, has no duplicate and no empty label: it is
    [Linux] whenever no declaration contributed a label, and the
    de-duplicated declared labels otherwise.  (A captured text or a
    declared list may itself equal the default.) *)
Theorem metadata_is_never_empty (path : Path) (text : string) :
  read_text path = Some text →
  let st := scan_lines initial_state (Py.splitlines text) in
  let result := extract_script_metadata path in
  result.1 ≠ ""
  ∧ (description st = "" → result.1 = NO_DESCRIPTION)
  ∧ (description st ≠ "" → result.1 = description st)
  ∧ result.2 ≠ []
  ∧ NoDup result.2
  ∧ Forall (λ label, label ≠ "") result.2
  ∧ (os_candidates st = [] → result.2 = ["Linux"])
  ∧ (os_candidates st ≠ [] →
     result.2 = _dedupe_preserve_order (os_candidates st)).
Proof.
  intros Hr st result. subst result. unfold extract_script_metadata.
  rewrite Hr. fold st. unfold finish. cbn [fst snd].
  assert (Hc : Forall (λ label, label ≠ "") (os_candidates st)).
  { apply scan_lines_candidates. constructor. }
  destruct (Py.truthy (description st)) eqn:Ht; cbn [negb].
  - apply truthy_true in Ht.
    destruct (os_candidates st) as [|c cs] eqn:Ec.
    + cbn. repeat split; try done; try (repeat constructor; set_solver).
    + pose proof (dedupe_nonempty (c :: cs) ltac:(done) Hc) as Hne.
      destruct (_dedupe_preserve_order (c :: cs)) as [|d ds] eqn:Ed; [done|].
      repeat split; try done.
      * rewrite <- Ed. apply NoDup_dedupe_loop.
      * apply Forall_forall. intros x Hx. rewrite <- Ed in Hx.
        apply elem_of_dedupe_loop in Hx. tauto.
  - apply truthy_false in Ht.
    destruct (os_candidates st) as [|c cs] eqn:Ec.
    + cbn. repeat split; try done; try (repeat constructor; set_solver).
    + pose proof (dedupe_nonempty (c :: cs) ltac:(done) Hc) as Hne.
      destruct (_dedupe_preserve_order (c :: cs)) as [|d ds] eqn:Ed; [done|].
      repeat split; try done.
      * rewrite <- Ed. apply NoDup_dedupe_loop.
      * apply Forall_forall. intros x Hx. rewrite <- Ed in Hx.
        apply elem_of_dedupe_loop in Hx. tauto.
Qed.

Lemma metadata_is_never_empty_witness :
  (extract_script_metadata
     (text_file "up.sh" ".sh" "net/up.sh" ("echo up" +:+ NL))).1
  = "No description available"
  ∧ (extract_script_metadata
       (text_file "up.sh" ".sh" "net/up.sh" ("echo up" +:+ NL))).2
    = ["Linux"].
Proof.
  pose proof (metadata_is_never_empty
                (text_file "up.sh" ".sh" "net/up.sh" ("echo up" +:+ NL))
                ("echo up" +:+ NL) eq_refl) as H.
  cbv zeta in H. destruct H as (_ & Hd & _ & _ & _ & _ & Ho & _).
  split; [by apply Hd|by apply Ho].
Defined.

(** Claim C3 as stated fails in its two [exactly when]: a captured
    description can be the sentinel text, and a declaration can contribute
    exactly the default label. *)
Lemma metadata_default_not_exact :
  let p1 := text_file "a.sh" ".sh" "net/a.sh" "# No description available" in
  let p2 := text_file "b.sh" ".sh" "net/b.sh" "# Supports: Linux" in
  ¬ ((extract_script_metadata p1).1 = NO_DESCRIPTION
     ↔ description
         (scan_lines initial_state (Py.splitlines "# No description available"))
       = "")
  ∧ ¬ ((extract_script_metadata p2).2 = ["Linux"]
       ↔ os_candidates
           (scan_lines initial_state (Py.splitlines "# Supports: Linux"))
         = []).
Proof.
  split.
  - intros [H _]. specialize (H eq_refl). vm_compute in H. discriminate H.
  - intros [H _]. specialize (H eq_refl). vm_compute in H. discriminate H.
Qed.

(** ** The interpreter detector: shebang lines *)

Section shebang_facts.

Lemma app_cons c a b : String c a +:+ b = String c (a +:+ b).
Proof. reflexivity. Qed.

Lemma app_empty_l a : "" +:+ a = a.
Proof. reflexivity. Qed.

Lemma contains_unfold s sub :
  Py.contains s sub
  = Py.startswith s sub
    || match s with "" => false | String _ s' => Py.contains s' sub end.
Proof. by destruct s. Qed.

(** [sub in s] decides that [sub] occurs in [s]. *)
Lemma contains_spec s sub : Py.contains s sub = true ↔ Substring sub s.
Proof.
  split.
  - induction s as [|c s IH]; rewrite contains_unfold; intros H;
      apply orb_true_iff in H as [H|H]; try done.
    + apply startswith_split in H as [H _]. by exists "", (Py.drop (String.length sub) "").
    + apply startswith_split in H as [H _].
      by exists "", (Py.drop (String.length sub) (String c s)).
    + destruct (IH H) as (pre & post & ->). by exists (String c pre), post.
  - intros (pre & post & ->). induction pre as [|c pre IH];
      rewrite contains_unfold.
    + rewrite app_empty_l, startswith_app. done.
    + rewrite app_cons, IH. apply orb_true_r.
Qed.

Lemma Substring_empty sub : Substring sub "" → sub = "".
Proof.
  intros (pre & post & H). destruct pre; [|done].
  rewrite app_empty_l in H. by destruct sub.
Qed.

(** The loop over the table returns the value of the first match. *)
Lemma scan_mapping_first items interpreter key value :
  first_match items interpreter key value →
  scan_mapping items interpreter = Some value.
Proof.
  intros (i & Hi & Hsub & Hmin). revert i Hi Hmin.
  induction items as [|[k v] items IH]; intros i Hi Hmin; [done|].
  cbn [scan_mapping]. destruct i as [|i]; simpl in Hi.
  - injection Hi as -> ->. by rewrite (proj2 (contains_spec _ _) Hsub).
  - destruct (Py.contains interpreter k) eqn:Hc.
    + apply contains_spec in Hc. by destruct (Hmin 0 k v ltac:(lia) eq_refl).
    + apply (IH i Hi). intros j k' v' Hj Hl.
      apply (Hmin (S j) k' v'); [lia|done].
Qed.

Lemma scan_mapping_none items interpreter :
  (∀ key value, (key, value) ∈ items → ¬ Substring key interpreter) →
  scan_mapping items interpreter = None.
Proof.
  induction items as [|[k v] items IH]; intros H; [done|].
  cbn [scan_mapping]. destruct (Py.contains interpreter k) eqn:Hc.
  - apply contains_spec in Hc. destruct (H k v); [apply elem_of_cons; by left|done].
  - apply IH. intros key value Hin. apply (H key value).
    apply elem_of_cons. by right.
Qed.

End shebang_facts.

Section token_facts.

Lemma shebang_interpreter_tokens rest :
  shebang_interpreter ("#!" +:+ rest)
  = match Py.split (Py.strip rest) with
    | [] => ""
    | [part0] => part0
    | part0 :: part1 :: _ => if Py.endswith part0 "env" then part1 else part0
    end.
Proof.
  unfold shebang_interpreter.
  change ("#!" +:+ rest) with (String "#" (String "!" rest)).
  cbn [Py.startswith Py.drop]. rewrite !Ascii.eqb_refl.
  destruct (Py.split (Py.strip rest)) as [|part0 [|part1 parts]].
  - reflexivity.
  - cbn [length]. by rewrite andb_false_r.
  - cbn [length nth]. by rewrite andb_true_r.
Qed.

Lemma mapping_keys_truthy i key value :
  mapping !! i = Some (key, value) → key ≠ "".
Proof.
  unfold mapping. intros Hl.
  repeat (destruct i as [|i]; [by injection Hl as <- <-|]). done.
Qed.

End token_facts.

(** Claim C5, as the code has it.  For a first line that is a shebang, the
    interpreter name is the second white-space separated token when the
    first token ends with [env] and a second token exists, and otherwise
    the whole first token, directories included.  The name is lower-cased
    and the table is scanned in its order: the detector returns the value
    of the first key that occurs in the name, and chooses by extension
    when no key occurs in it. *)
Theorem shebang_selects_first_matching_key (script_path : Path) (rest : string) :
  first_line_of script_path = "#!" +:+ rest →
  let interpreter :=
    match Py.split (Py.strip rest) with
    | [] => ""
    | [part0] => part0
    | part0 :: part1 :: _ => if Py.endswith part0 "env" then part1 else part0
    end in
  shebang_interpreter (first_line_of script_path) = interpreter
  ∧ (∀ key value,
       first_match mapping (Py.lower interpreter) key value →
       detect_executor script_path = value)
  ∧ ((∀ key value,
        (key, value) ∈ mapping → ¬ Substring key (Py.lower interpreter)) →
     detect_executor script_path
     = executor_of_suffix (Py.lower (suffix script_path))).
Proof.
  intros Hf interpreter.
  assert (Hi : shebang_interpreter (first_line_of script_path) = interpreter).
  { rewrite Hf. apply shebang_interpreter_tokens. }
  split; [exact Hi|]. unfold detect_executor. rewrite Hi.
  clearbody interpreter. split.
  - intros key value Hm. rewrite (scan_mapping_first _ _ _ _ Hm).
    destruct (Py.truthy (Py.lower interpreter)) eqn:Ht; [reflexivity|].
    apply truthy_false in Ht. destruct Hm as (i & Hl & Hs & _).
    rewrite Ht in Hs. apply Substring_empty in Hs.
    by destruct (mapping_keys_truthy _ _ _ Hl).
  - intros Hn. rewrite (scan_mapping_none _ _ Hn).
    by destruct (Py.truthy (Py.lower interpreter)).
Qed.

Lemma shebang_selects_first_matching_key_witness :
  detect_executor
    (text_file "serve.py" ".py" "net/serve.py"
       ("#!/usr/bin/env Python3 -u" +:+ NL +:+ "print(1)"))
  = "python3".
Proof.
  pose proof (shebang_selects_first_matching_key
                (text_file "serve.py" ".py" "net/serve.py"
                   ("#!/usr/bin/env Python3 -u" +:+ NL +:+ "print(1)"))
                "/usr/bin/env Python3 -u" eq_refl) as H.
  cbv zeta in H. destruct H as (_ & H & _).
  apply (H "python3"). exists 2. split; [reflexivity|]. split.
  - apply contains_spec. reflexivity.
  - intros j k v Hj Hl Hs. apply contains_spec in Hs.
    destruct j as [|[|j]]; [| |lia];
      injection Hl as <- <-; discriminate Hs.
Defined.


(** Claim C5 as stated fails: the code neither takes the base name of the
    first token nor compares it with [env].  A directory named after an
    interpreter decides the result, and any first token that ends with
    [env] is taken for the launcher. *)
Lemma shebang_is_not_read_by_basename :
  let p1 := text_file "run" "" "net/run" ("#!/bash/bin/perl -w" +:+ NL) in
  let p2 := text_file "job" "" "net/job" ("#!/opt/myenv python3" +:+ NL) in
  shebang_interpreter (first_line_of p1) = "/bash/bin/perl"
  ∧ interpreter_by_basename (first_line_of p1) = "perl"
  ∧ detect_executor p1 = "bash"
  ∧ detect_executor_by_basename p1 = "perl"
  ∧ shebang_interpreter (first_line_of p2) = "python3"
  ∧ interpreter_by_basename (first_line_of p2) = "myenv"
  ∧ detect_executor p2 = "python3"
  ∧ detect_executor_by_basename p2 = "sh"
  ∧ detect_executor p1 ≠ detect_executor_by_basename p1
  ∧ detect_executor p2 ≠ detect_executor_by_basename p2.
Proof.
  cbv zeta. refine (conj _ (conj _ (conj _ (conj _ (conj _ (conj _
    (conj _ (conj _ (conj _ _))))))))); vm_compute; congruence.
Qed.

(** ** Docstrings *)

Section count_facts.

Lemma count_from_drop k s sub :
  Py.count_from k s sub = Py.count_from 0 (Py.drop k s) sub.
Proof.
  revert k. induction s as [|c s IH]; intros [|k]; try done.
  cbn [Py.count_from Py.drop]. apply IH.
Qed.

Lemma contains_empty sub : sub ≠ "" → Py.contains "" sub = false.
Proof. by destruct sub. Qed.

Lemma startswith_empty sub : sub ≠ "" → Py.startswith "" sub = false.
Proof. by destruct sub. Qed.

(** [sub] occurs in [s] exactly when [s.count(sub)] is positive. *)
Lemma count_from_positive s sub :
  sub ≠ "" → (0 <? Py.count_from 0 s sub) = Py.contains s sub.
Proof.
  intros Hne. induction s as [|c s IH].
  - by rewrite contains_empty.
  - rewrite contains_unfold. cbn [Py.count_from].
    destruct (Py.startswith (String c s) sub); [done|]. by rewrite IH.
Qed.

Lemma count_after_prefix s sub :
  sub ≠ "" → Py.startswith s sub = true →
  Py.count s sub = S (Py.count_from 0 (Py.drop (String.length sub) s) sub).
Proof.
  intros Hne H. destruct sub as [|a sub]; [done|].
  destruct s as [|c s]; [done|].
  cbn [Py.count Py.count_from]. rewrite H, count_from_drop.
  do 2 f_equal. cbn. by rewrite Nat.sub_0_r.
Qed.

Lemma contains_lstrip s a sub :
  Py.isspace a = false →
  Py.contains (Py.lstrip s) (String a sub) = Py.contains s (String a sub).
Proof.
  intros Ha. induction s as [|c s IH]; [done|].
  cbn [Py.lstrip]. destruct (Py.isspace c) eqn:Hc; [|done].
  rewrite IH, (contains_unfold (String c s)). cbn [Py.startswith].
  destruct (Ascii.eqb_spec a c) as [->|]; [congruence|done].
Qed.

Lemma rstrip_cons c s :
  Py.rstrip (String c s)
  = if negb (Py.truthy (Py.rstrip s)) && Py.isspace c then ""
    else String c (Py.rstrip s).
Proof.
  cbn [Py.rstrip]. destruct (Py.rstrip s); [|done]. by destruct (Py.isspace c).
Qed.

Lemma startswith_cons c s a p :
  Py.startswith (String c s) (String a p)
  = if Ascii.eqb a c then Py.startswith s p else false.
Proof. done. Qed.

Lemma startswith_rstrip s sub :
  ends_with_non_space sub = true →
  Py.startswith (Py.rstrip s) sub = Py.startswith s sub.
Proof.
  revert sub. induction s as [|c s IH]; intros sub Hs; [done|].
  destruct sub as [|a sub]; [done|]. rewrite rstrip_cons.
  destruct sub as [|b sub].
  - cbn in Hs. apply negb_true_iff in Hs.
    destruct (Py.truthy (Py.rstrip s)); cbn [negb andb]; [done|].
    destruct (Py.isspace c) eqn:Hc; [|done].
    rewrite startswith_cons.
    destruct (Ascii.eqb_spec a c) as [->|]; [congruence|done].
  - assert (Hs' : ends_with_non_space (String b sub) = true) by exact Hs.
    specialize (IH _ Hs').
    destruct (Py.truthy (Py.rstrip s)) eqn:Ht; cbn [negb andb].
    + by rewrite !startswith_cons, IH.
    + apply truthy_false in Ht. rewrite Ht in IH.
      rewrite startswith_empty in IH by done.
      destruct (Py.isspace c); rewrite ?startswith_cons, ?Ht, <- IH;
        by destruct (Ascii.eqb a c).
Qed.

Lemma contains_rstrip s sub :
  ends_with_non_space sub = true →
  Py.contains (Py.rstrip s) sub = Py.contains s sub.
Proof.
  intros Hs. assert (Hne : sub ≠ "") by by destruct sub.
  induction s as [|c s IH]; [done|].
  rewrite (contains_unfold (String c s)), <- IH,
    <- (startswith_rstrip (String c s)) by done.
  rewrite rstrip_cons.
  destruct (negb (Py.truthy (Py.rstrip s)) && Py.isspace c) eqn:E.
  - apply andb_prop in E as [E _]. apply negb_true_iff, truthy_false in E.
    rewrite E. by rewrite contains_empty, startswith_empty.
  - by rewrite contains_unfold.
Qed.

Lemma contains_strip s a sub :
  Py.isspace a = false → ends_with_non_space (String a sub) = true →
  Py.contains (Py.strip s) (String a sub) = Py.contains s (String a sub).
Proof.
  intros Ha Hs. unfold Py.strip. by rewrite contains_rstrip, contains_lstrip.
Qed.

Lemma contains_drop s k : Py.contains s (Py.drop k s) = true.
Proof.
  revert k. induction s as [|c s IH]; intros k.
  - by destruct k.
  - rewrite contains_unfold. destruct k as [|k]; cbn [Py.drop].
    + by rewrite startswith_refl.
    + rewrite IH. apply orb_true_r.
Qed.

(** A suffix occurs in the string. *)
Lemma endswith_contains s sub :
  Py.endswith s sub = true → Py.contains s sub = true.
Proof.
  unfold Py.endswith. intros H. apply andb_prop in H as [_ H].
  apply String.eqb_eq in H. rewrite <- H. apply contains_drop.
Qed.

End count_facts.

Section docstring_facts.

(** A line that starts with a triple quote is not blank, no [#!] line and
    no comment; its first three characters are that triple quote. *)
Lemma quote_line line :
  Py.startswith line triple_double || Py.startswith line triple_single = true →
  Py.truthy line = true ∧ Py.startswith line "#!" = false
  ∧ comment_text_of line = None
  ∧ Py.startswith line (Py.take 3 line) = true
  ∧ (Py.take 3 line = triple_double ∨ Py.take 3 line = triple_single).
Proof.
  intros H.
  assert (Ht : Py.startswith line (Py.take 3 line) = true
               ∧ (Py.take 3 line = triple_double ∨ Py.take 3 line = triple_single)).
  { apply orb_prop in H as [H|H]; pose proof H as H';
      apply startswith_split in H as [_ H];
      change (String.length _) with 3 in H; rewrite H; auto. }
  destruct line as [|c line]; [done|].
  unfold triple_double, triple_single in H. rewrite !startswith_cons in H.
  destruct (Ascii.eqb_spec DQ c) as [<-|]; [done|].
  destruct (Ascii.eqb_spec "'" c) as [<-|]; done.
Qed.

(** With a triple quote as delimiter, the line holds a second delimiter
    exactly when the stripped remainder holds one. *)
Lemma count_delimiter line delimiter :
  delimiter = triple_double ∨ delimiter = triple_single →
  Py.startswith line delimiter = true →
  (2 <=? Py.count line delimiter)
  = Py.contains (Py.strip (Py.drop 3 line)) delimiter.
Proof.
  intros Hd H.
  assert (delimiter ≠ "" ∧ String.length delimiter = 3
          ∧ ∃ a sub, delimiter = String a sub ∧ Py.isspace a = false
                     ∧ ends_with_non_space (String a sub) = true)
    as (Hne & Hlen & a & sub & -> & Ha & Hs).
  { destruct Hd as [->| ->]; (split; [done|]); (split; [done|]);
      eexists _, _; done. }
  rewrite contains_strip, <- count_from_positive by done.
  rewrite (count_after_prefix line _ Hne H), Hlen.
  by destruct (Py.count_from 0 (Py.drop 3 line) (String a sub)).
Qed.

End docstring_facts.

(** The opening line of a docstring, as far as the code treats it as
    intended.  In the scanning state, for a line that opens a docstring:
    when the stripped remainder after the opening triple quote ends with
    the delimiter and is longer than it, the stripped text before that
    delimiter is the description, if it is not empty and none was
    captured, and scanning stops; whenever the remainder holds the
    delimiter, scanning stops there, whatever follows, with no label added;
    when the remainder holds no delimiter, the remainder is kept as
    description if it is not empty and none was captured, and scanning goes
    on with the following lines inside the docstring.  A file whose
    docstring is [Restart service.], on one line or on three, has that
    description and the default OS list. *)
Theorem docstring_opening_by_design (st : scan_state) (raw_line : string) :
  let line := Py.strip raw_line in
  let delimiter := Py.take 3 line in
  let remainder := Py.strip (Py.drop 3 line) in
  let capture text :=
    if Py.truthy text && negb (Py.truthy (description st)) then text
    else description st in
  in_docstring st = false →
  Py.startswith line triple_double || Py.startswith line triple_single = true →
  (Py.endswith remainder delimiter = true → 3 < String.length remainder →
   ∀ rest,
     scan_lines st (raw_line :: rest)
     = {| description := capture (Py.strip (Py.drop_last 3 remainder));
          os_candidates := os_candidates st;
          in_docstring := false;
          docstring_delimiter := delimiter |})
  ∧ (Py.contains remainder delimiter = true →
     ∀ rest,
       scan_lines st (raw_line :: rest) = scan_lines st [raw_line]
       ∧ os_candidates (scan_lines st [raw_line]) = os_candidates st
       ∧ in_docstring (scan_lines st [raw_line]) = false)
  ∧ (Py.contains remainder delimiter = false →
     ∀ rest,
       scan_lines st (raw_line :: rest)
       = scan_lines {| description := capture remainder;
                       os_candidates := os_candidates st;
                       in_docstring := true;
                       docstring_delimiter := delimiter |} rest)
  ∧ (∀ path text rest,
       read_text path = Some text →
       Py.splitlines text
       = (triple_double +:+ "Restart service." +:+ triple_double) :: rest →
       extract_script_metadata path = ("Restart service.", ["Linux"]))
  ∧ (∀ path text code rest,
       read_text path = Some text →
       Py.splitlines text
       = triple_double :: "Restart service." :: triple_double :: code :: rest →
       is_code_line code = true →
       extract_script_metadata path = ("Restart service.", ["Linux"])).
Proof.
  intros line delimiter remainder capture Hdoc Hq.
  destruct (quote_line line Hq) as (Ht & Hsb & Hc & Hstart & Hd).
  pose proof (count_delimiter line delimiter Hd Hstart) as Hcount.
  assert (Hlen : String.length delimiter = 3) by (unfold delimiter; destruct Hd as [Hd|Hd]; by rewrite Hd).
  assert (Hstep : process_line st raw_line
    = if Py.endswith remainder delimiter && (3 <? String.length remainder)
      then Break {| description := capture (Py.strip (Py.drop_last 3 remainder));
                    os_candidates := os_candidates st;
                    in_docstring := false;
                    docstring_delimiter := delimiter |}
      else if Py.contains remainder delimiter
      then Break {| description := capture remainder;
                    os_candidates := os_candidates st;
                    in_docstring := false;
                    docstring_delimiter := delimiter |}
      else Continue {| description := capture remainder;
                       os_candidates := os_candidates st;
                       in_docstring := true;
                       docstring_delimiter := delimiter |}).
  { unfold process_line. fold line. rewrite Ht, Hsb, Hdoc, Hc, Hq.
    cbn [negb]. cbv zeta. fold delimiter. fold remainder.
    rewrite Hcount, Hlen. fold capture. done. }
  split; [|split; [|split; [|split]]].
  - intros He Hl rest. cbn [scan_lines]. rewrite Hstep, He.
    by rewrite (proj2 (Nat.ltb_lt _ _) Hl).
  - intros Hin rest. cbn [scan_lines]. rewrite Hstep, Hin.
    by destruct (Py.endswith remainder delimiter && (3 <? String.length remainder)).
  - intros Hin rest. cbn [scan_lines]. rewrite Hstep, Hin.
    destruct (Py.endswith remainder delimiter) eqn:He; [|done].
    apply endswith_contains in He. congruence.
  - intros path text rest Hr Hl.
    unfold extract_script_metadata. rewrite Hr, Hl. reflexivity.
  - intros path text code rest Hr Hl Hcode.
    unfold extract_script_metadata. rewrite Hr, Hl.
    set (st1 := {| description := ""; os_candidates := [];
                   in_docstring := true; docstring_delimiter := triple_double |}).
    set (st2 := {| description := "Restart service."; os_candidates := [];
                   in_docstring := true; docstring_delimiter := triple_double |}).
    set (st3 := {| description := "Restart service."; os_candidates := [];
                   in_docstring := false; docstring_delimiter := triple_double |}).
    assert (H1 : process_line initial_state triple_double = Continue st1)
      by reflexivity.
    assert (H2 : process_line st1 "Restart service." = Continue st2)
      by reflexivity.
    assert (H3 : process_line st2 triple_double = Continue st3) by reflexivity.
    cbn [scan_lines]. rewrite H1, H2, H3.
    by rewrite (process_code_line st3 code eq_refl Hcode).
Qed.

Lemma docstring_opening_by_design_witness :
  scan_lines initial_state
    [ "  " +:+ triple_single +:+ " Rotate logs. " +:+ triple_single;
      "# Supports: macOS" ]
  = {| description := "Rotate logs."; os_candidates := [];
       in_docstring := false; docstring_delimiter := triple_single |}.
Proof.
  apply (proj1 (docstring_opening_by_design initial_state
                  ("  " +:+ triple_single +:+ " Rotate logs. " +:+ triple_single)
                  eq_refl eq_refl)).
  - reflexivity.
  - vm_compute. lia.
Defined.

(** Claim C6: the code departs from the claim where the closing delimiter
    is not handled by the first test of the opening line.  On the line of
    six quotes the remainder holds the closing delimiter and the content
    between the delimiters is empty, so nothing should be captured, yet the
    description is the delimiter itself; on the line
    [DQ DQ DQ Foo DQ DQ DQ bar] the content between the delimiters is
    [Foo], yet the description is the whole remainder
    [Foo DQ DQ DQ bar], closing delimiter included. *)
Lemma docstring_content_not_between_delimiters :
  let raw_line := triple_double +:+ "Foo" +:+ triple_double +:+ " bar" in
  let remainder := Py.strip (Py.drop 3 (Py.strip raw_line)) in
  let empty := triple_double +:+ triple_double in
  let remainder' := Py.strip (Py.drop 3 (Py.strip empty)) in
  (in_docstring initial_state = false
   ∧ Py.startswith (Py.strip raw_line) triple_double = true
   ∧ Py.contains remainder triple_double = true
   ∧ Py.strip (text_before remainder triple_double) = "Foo"
   ∧ description (scan_lines initial_state [raw_line])
     = "Foo" +:+ triple_double +:+ " bar"
   ∧ description (scan_lines initial_state [raw_line]) ≠ "Foo")
  ∧ (Py.startswith (Py.strip empty) triple_double = true
     ∧ Py.contains remainder' triple_double = true
     ∧ Py.strip (text_before remainder' triple_double) = ""
     ∧ description (scan_lines initial_state [empty]) = triple_double).
Proof. cbv zeta. repeat split; vm_compute; congruence. Qed.

(** ** The generated document *)

Section listing_facts.

Local Instance path_le_trans : Transitive path_le.
Proof. intros p q r. unfold path_le. apply transitivity. Qed.

Local Instance path_le_total : Total path_le.
Proof. intros p q. unfold path_le. apply total, _. Qed.

(** Entries with distinct names have one sorted arrangement. *)
Lemma sorted_Permutation (l1 l2 : list Path) :
  l1 ≡ₚ l2 → NoDup (name <$> l1) → sorted l1 = sorted l2.
Proof.
  intros Hp Hn. unfold sorted.
  apply (Sorted_unique_strong path_le).
  - intros p q Hp1 Hq2 Hpq Hqp.
    rewrite merge_sort_Permutation in Hp1.
    rewrite merge_sort_Permutation, <- Hp in Hq2.
    assert (Hname : name p = name q) by (by apply (anti_symm String.le)).
    apply list_elem_of_lookup in Hp1 as [i Hi], Hq2 as [j Hj].
    assert (i = j) as ->.
    { apply (NoDup_lookup _ i j (name p) Hn); rewrite list_lookup_fmap.
      - by rewrite Hi.
      - by rewrite Hj, Hname. }
    congruence.
  - apply Sorted_merge_sort, _.
  - apply Sorted_merge_sort, _.
  - by rewrite !merge_sort_Permutation.
Qed.

End listing_facts.

(** Claim C9.  The generated document depends on the contents of the
    directory tree only, not on the order in which the file system lists
    the entries of a directory: two listings of the same tree, whose
    directories hold the same entries under pairwise distinct names, give
    the same categories and the same document, byte for byte. *)
Theorem generated_document_is_deterministic
    (dedent : string → string) (REPO_ROOT : Path)
    (iterdir1 iterdir2 : Path → list Path) :
  (∀ directory, iterdir1 directory ≡ₚ iterdir2 directory) →
  (∀ directory, NoDup (name <$> iterdir1 directory)) →
  build_categories iterdir1 REPO_ROOT = build_categories iterdir2 REPO_ROOT
  ∧ generate iterdir1 dedent REPO_ROOT = generate iterdir2 dedent REPO_ROOT.
Proof.
  intros Hp Hn.
  assert (Hs : ∀ directory,
             sorted (iterdir1 directory) = sorted (iterdir2 directory))
    by (intros directory; by apply sorted_Permutation).
  assert (build_categories iterdir1 REPO_ROOT
          = build_categories iterdir2 REPO_ROOT) as Hc.
  { unfold build_categories, iter_category_dirs, iter_scripts.
    rewrite Hs. apply map_ext. intros directory. by rewrite Hs. }
  split; [done|]. unfold generate. by rewrite Hc.
Qed.

Lemma generated_document_is_deterministic_witness :
  let run := text_file "run.sh" ".sh" "net/run.sh" "# Run" in
  let dns := text_file "dns.py" ".py" "net/dns.py" "# Platform: macOS" in
  let net := directory "net" "net" in
  let sys := directory "sys" "sys" in
  let listing1 p := if is_dir p then if String.eqb (name p) "net" then [run; dns] else [sys; net] else [] in
  let listing2 p := if is_dir p then if String.eqb (name p) "net" then [dns; run] else [net; sys] else [] in
  let root := directory "" "." in
  listing1 root ≠ listing2 root
  ∧ build_categories listing1 root = build_categories listing2 root
  ∧ generate listing1 (λ text, text) root = generate listing2 (λ text, text) root.
Proof.
  intros run dns net sys listing1 listing2 root.
  split; [by vm_compute|].
  apply (generated_document_is_deterministic (λ text, text) root listing1 listing2).
  - intros p. unfold listing1, listing2.
    destruct (is_dir p); [|done]. destruct (String.eqb (name p) "net"); apply perm_swap.
  - intros p. unfold listing1.
    destruct (is_dir p); [|constructor].
    destruct (String.eqb (name p) "net");
      apply (bool_decide_unpack _); reflexivity.
Defined.

(** ** A [#!] line inside an open docstring *)

Lemma shebang_lines_skipped_in_every_state_witness :
  let st := {| description := ""; os_candidates := ["Linux"];
               in_docstring := true; docstring_delimiter := triple_double |} in
  process_line st ("  #!/bin/sh " +:+ triple_double) = Continue st.
Proof.
  apply (proj1 shebang_lines_skipped_in_every_state). reflexivity.
Defined.

(** ** Stripping *)

Section strip_facts.

Lemma lstrip_fixed s :
  Py.lstrip s = s ↔ s = "" ∨ ∃ c s', s = String c s' ∧ Py.isspace c = false.
Proof.
  split.
  - destruct s as [|c s]; [by left|]. cbn [Py.lstrip].
    destruct (Py.isspace c) eqn:Hc; [|by right; eauto].
    intros H. exfalso.
    assert (Hlen : ∀ t, String.length (Py.lstrip t) ≤ String.length t).
    { induction t as [|d t IH]; [done|]. cbn [Py.lstrip].
      destruct (Py.isspace d); cbn [String.length]; lia. }
    specialize (Hlen s). rewrite H in Hlen. cbn [String.length] in Hlen. lia.
  - intros [->|(c & s' & -> & Hc)]; [done|]. cbn [Py.lstrip]. by rewrite Hc.
Qed.

Lemma lstrip_lstrip s : Py.lstrip (Py.lstrip s) = Py.lstrip s.
Proof.
  induction s as [|c s IH]; [done|]. cbn [Py.lstrip].
  destruct (Py.isspace c) eqn:Hc; [done|]. cbn [Py.lstrip]. by rewrite Hc.
Qed.

Lemma rstrip_rstrip s : Py.rstrip (Py.rstrip s) = Py.rstrip s.
Proof.
  induction s as [|c s IH]; [done|]. rewrite rstrip_cons.
  destruct (negb (Py.truthy (Py.rstrip s)) && Py.isspace c) eqn:E; [done|].
  by rewrite rstrip_cons, IH, E.
Qed.

Lemma lstrip_rstrip s : Py.lstrip s = s → Py.lstrip (Py.rstrip s) = Py.rstrip s.
Proof.
  intros H. apply lstrip_fixed in H as [->|(c & s' & -> & Hc)]; [done|].
  rewrite rstrip_cons, Hc, andb_false_r. cbn [Py.lstrip]. by rewrite Hc.
Qed.

Lemma strip_strip s : Py.strip (Py.strip s) = Py.strip s.
Proof.
  unfold Py.strip.
  by rewrite (lstrip_rstrip (Py.lstrip s) (lstrip_lstrip s)), rstrip_rstrip.
Qed.

End strip_facts.

(** ** The scanning loop *)

Section loop_facts.

Lemma process_line_strip st raw :
  process_line st (Py.strip raw) = process_line st raw.
Proof. unfold process_line. by rewrite strip_strip. Qed.

Lemma process_line_description st raw :
  description st ≠ "" →
  description (state_of (process_line st raw)) = description st.
Proof.
  intros H. apply truthy_true in H. unfold process_line, set_description.
  rewrite H. cbn [negb andb]. rewrite ?andb_false_r.
  repeat case_match; rewrite ?andb_false_r in *; done.
Qed.

Lemma process_line_prefix st raw :
  os_candidates st `prefix_of` os_candidates (state_of (process_line st raw)).
Proof.
  unfold process_line, set_description.
  repeat case_match; simplify_eq/=; try done.
  by apply prefix_app_r.
Qed.

Lemma process_line_in_docstring st raw :
  in_docstring st = true →
  ∃ st', process_line st raw = Continue st'
         ∧ os_candidates st' = os_candidates st
         ∧ docstring_delimiter st' = docstring_delimiter st.
Proof.
  intros H. unfold process_line, set_description. rewrite H.
  repeat case_match; eauto.
Qed.

End loop_facts.

(** Indentation and trailing white space of the lines of a file have no
    effect on the scan. *)
Theorem scan_ignores_outer_white_space (st : scan_state) (lines : list string) :
  scan_lines st (Py.strip <$> lines) = scan_lines st lines.
Proof.
  revert st. induction lines as [|raw lines IH]; intros st; [done|].
  cbn [fmap list_fmap scan_lines]. rewrite process_line_strip.
  destruct (process_line st raw); [apply IH|done].
Qed.

(** The first description captured is kept: once the description is not
    empty, no later line changes it. *)
Theorem first_description_wins (st : scan_state) (lines : list string) :
  description st ≠ "" → description (scan_lines st lines) = description st.
Proof.
  revert st. induction lines as [|raw lines IH]; intros st H; [done|].
  cbn [scan_lines]. pose proof (process_line_description st raw H) as Hd.
  destruct (process_line st raw) as [st'|st']; cbn [state_of] in Hd; [|done].
  rewrite IH; [done|congruence].
Qed.

Lemma first_description_wins_witness :
  description
    (scan_lines
       {| description := "Sync router IP list"; os_candidates := [];
          in_docstring := false; docstring_delimiter := "" |}
       ["# Another summary"; "// a third one"; triple_double +:+ "Doc"])
  = "Sync router IP list".
Proof. by apply first_description_wins. Defined.

(** The labels collected so far are never dropped or reordered: the scan
    only appends to them. *)
Theorem os_candidates_only_grow (st : scan_state) (lines : list string) :
  os_candidates st `prefix_of` os_candidates (scan_lines st lines).
Proof.
  revert st. induction lines as [|raw lines IH]; intros st; [done|].
  cbn [scan_lines]. pose proof (process_line_prefix st raw) as Hp.
  destruct (process_line st raw) as [st'|st']; cbn [state_of] in Hp; [|done].
  by etrans.
Qed.

(** Inside a docstring that no following line closes, nothing is read as a
    comment or as code: no label is collected, the scan stays inside the
    docstring to the end of the file, and the description, if none was
    captured, is the first line that is neither blank nor a [#!] line,
    stripped. *)
Theorem unterminated_docstring (st : scan_state) (lines : list string) :
  in_docstring st = true →
  Forall (λ raw, is_skipped_line raw = true
                 ∨ Py.endswith (Py.strip raw) (docstring_delimiter st) = false)
         lines →
  let st' := scan_lines st lines in
  in_docstring st' = true
  ∧ os_candidates st' = os_candidates st
  ∧ docstring_delimiter st' = docstring_delimiter st
  ∧ description st'
    = if Py.truthy (description st) then description st
      else default ""
             (head (Py.strip <$> List.filter (λ raw, negb (is_skipped_line raw)) lines)).
Proof.
  intros Hdoc Hlines. revert st Hdoc Hlines.
  induction lines as [|raw lines IH]; intros st Hdoc Hlines; cbn zeta.
  { cbn. by destruct (description st). }
  apply Forall_cons in Hlines as [Hraw Hlines].
  cbn [scan_lines List.filter].
  destruct (is_skipped_line raw) eqn:Hskip; cbn [negb].
  - assert (process_line st raw = Continue st) as ->.
    { unfold is_skipped_line in Hskip. unfold process_line.
      apply orb_prop in Hskip as [Hs|Hs]; rewrite Hs; [done|].
      by destruct (Py.truthy (Py.strip raw)). }
    by apply IH.
  - destruct Hraw as [?|Hend]; [congruence|].
    unfold is_skipped_line in Hskip. apply orb_false_elim in Hskip as [Ht Hs].
    apply negb_false_iff in Ht.
    set (st1 := if negb (Py.truthy (description st)) && Py.truthy (Py.strip raw)
                then set_description st (Py.strip raw) else st).
    assert (process_line st raw = Continue st1) as ->.
    { unfold process_line, st1. by rewrite Ht, Hs, Hdoc, Hend. }
    assert (in_docstring st1 = true ∧ os_candidates st1 = os_candidates st
            ∧ docstring_delimiter st1 = docstring_delimiter st
            ∧ description st1
              = if Py.truthy (description st) then description st
                else Py.strip raw) as (H1 & H2 & H3 & H4).
    { unfold st1. rewrite Ht, andb_true_r.
      by destruct (Py.truthy (description st)). }
    destruct (IH st1 H1) as (I1 & I2 & I3 & I4).
    { by rewrite H3. }
    rewrite I1, I2, I3, I4, H2, H3, H4. repeat split.
    destruct (Py.truthy (description st)) eqn:Hd; [by rewrite Hd|].
    by rewrite Ht.
Qed.

Lemma unterminated_docstring_witness :
  let st := {| description := ""; os_candidates := ["macOS"];
               in_docstring := true; docstring_delimiter := triple_single |} in
  let st' := scan_lines st ["#!/bin/sh '''"; ""; "  Rotate logs  "; "# Supports: Linux"; "exit 0"] in
  in_docstring st' = true
  ∧ os_candidates st' = ["macOS"]
  ∧ docstring_delimiter st' = triple_single
  ∧ description st' = "Rotate logs".
Proof.
  apply (unterminated_docstring
           {| description := ""; os_candidates := ["macOS"];
              in_docstring := true; docstring_delimiter := triple_single |}
           ["#!/bin/sh '''"; ""; "  Rotate logs  "; "# Supports: Linux"; "exit 0"]
           eq_refl).
  repeat constructor; (by left) || (by right).
Defined.

(** A file in which a line of code comes before any comment or docstring,
    blank lines and [#!] lines apart, has the sentinel description and
    the default OS list; so has a file of blank and [#!] lines only. *)
Theorem code_first_gives_defaults (path : Path) (text : string)
    (skipped tail : list string) :
  read_text path = Some text →
  Py.splitlines text = skipped ++ tail →
  Forall (λ raw, is_skipped_line raw = true) skipped →
  tail = [] ∨ (∃ code rest, tail = code :: rest ∧ is_code_line code = true) →
  extract_script_metadata path = (NO_DESCRIPTION, ["Linux"]).
Proof.
  intros Hr Hl Hskip Htail. unfold extract_script_metadata. rewrite Hr, Hl.
  assert (Hscan : ∀ st, in_docstring st = false →
                        scan_lines st (skipped ++ tail) = st).
  { clear Hl. induction Hskip as [|raw skipped Hraw _ IH]; intros st Hdoc.
    - destruct Htail as [->|(code & rest & -> & Hcode)]; [done|].
      cbn [app scan_lines]. by rewrite process_code_line.
    - cbn [app scan_lines].
      assert (process_line st raw = Continue st) as ->; [|by apply IH].
      unfold is_skipped_line in Hraw. unfold process_line.
      apply orb_prop in Hraw as [Hs|Hs]; rewrite Hs; [done|].
      by destruct (Py.truthy (Py.strip raw)). }
  by rewrite Hscan.
Qed.

Lemma code_first_gives_defaults_witness :
  extract_script_metadata
    (text_file "job.sh" ".sh" "net/job.sh"
       ("#!/bin/sh" +:+ NL +:+ NL +:+ "set -e" +:+ NL +:+ "# Supports: macOS" +:+ NL))
  = (NO_DESCRIPTION, ["Linux"]).
Proof.
  eapply (code_first_gives_defaults _ _ ["#!/bin/sh"; ""]
            ["set -e"; "# Supports: macOS"]); [reflexivity|reflexivity| |].
  - repeat constructor.
  - right. by exists "set -e", ["# Supports: macOS"].
Defined.

(** ** Line endings and the cells of the catalogue *)

Section newline_facts.

Lemma splitlines_go_translate cur after_cr text :
  Py.splitlines_go cur false (translate_newlines after_cr text)
  = Py.splitlines_go cur after_cr text.
Proof.
  revert cur after_cr. induction text as [|c text IH]; intros cur after_cr.
  { done. }
  cbn [translate_newlines Py.splitlines_go].
  destruct (after_cr && Ascii.eqb c "010") eqn:E; [apply IH|].
  destruct (Ascii.eqb c "013") eqn:Hc.
  - apply Ascii.eqb_eq in Hc as ->.
    change (Py.is_linebreak "013") with true. cbv iota.
    cbn [Py.splitlines_go andb].
    change (Py.is_linebreak "010") with true. cbv iota.
    change (Ascii.eqb "010" "013") with false. by rewrite IH.
  - cbn [Py.splitlines_go andb]. rewrite Hc.
    destruct (Py.is_linebreak c); by rewrite IH.
Qed.

End newline_facts.

(** The metadata of a file does not depend on its line endings: reading
    it with carriage returns translated to line feeds, as the text mode
    does, or untranslated, gives the same lines and the same result. *)
Theorem line_endings_do_not_matter :
  (∀ text, Py.splitlines (translate_newlines false text) = Py.splitlines text)
  ∧ (∀ p q text,
       read_text p = Some text →
       read_text q = Some (translate_newlines false text) →
       extract_script_metadata p = extract_script_metadata q).
Proof.
  split.
  - intros text. apply splitlines_go_translate.
  - intros p q text Hp Hq. unfold extract_script_metadata, Py.splitlines.
    by rewrite Hp, Hq, splitlines_go_translate.
Qed.

Lemma line_endings_do_not_matter_witness :
  let CR := String "013"%char "" in
  let dos := "# Flush DNS" +:+ CR +:+ NL +:+ "# OS: Windows" +:+ CR +:+ NL +:+ "exit" +:+ CR in
  let untranslated :=
    {| name := "dns.sh"; suffix := ".sh"; relative_posix := "net/dns.sh";
       is_dir := false; read_text := Some dos; readline := Some dos |} in
  extract_script_metadata untranslated
  = extract_script_metadata (text_file "dns.sh" ".sh" "net/dns.sh" dos).
Proof.
  intros CR dos untranslated.
  apply (proj2 line_endings_do_not_matter _ _ dos); reflexivity.
Defined.

Section clean_facts.

Variable P : ascii → bool.

Lemma all_chars_app a b :
  all_chars P (a +:+ b) = all_chars P a && all_chars P b.
Proof.
  induction a as [|c a IH]; [done|].
  rewrite app_cons. cbn [all_chars]. by rewrite IH, andb_assoc.
Qed.

Lemma all_chars_rev_app a b :
  all_chars P (String.rev_app a b) = all_chars P a && all_chars P b.
Proof.
  revert b. induction a as [|c a IH]; intros b; [done|].
  cbn [String.rev_app all_chars]. rewrite IH. cbn [all_chars].
  by destruct (P c), (all_chars P a).
Qed.

Lemma all_chars_rev a : all_chars P (String.rev a) = all_chars P a.
Proof. unfold String.rev. by rewrite all_chars_rev_app, andb_true_r. Qed.

Lemma all_chars_drop n s : all_chars P s = true → all_chars P (Py.drop n s) = true.
Proof.
  revert n. induction s as [|c s IH]; intros [|n] H; try done.
  cbn [Py.drop]. cbn [all_chars] in H. apply andb_prop in H as [_ H]. by apply IH.
Qed.

Lemma all_chars_take n s : all_chars P s = true → all_chars P (Py.take n s) = true.
Proof.
  revert n. induction s as [|c s IH]; intros [|n] H; try done.
  cbn [Py.take all_chars] in *. apply andb_prop in H as [-> H]. by apply IH.
Qed.

Lemma all_chars_drop_last n s :
  all_chars P s = true → all_chars P (Py.drop_last n s) = true.
Proof. destruct n; [done|]. apply all_chars_take. Qed.

Lemma all_chars_lstrip s : all_chars P s = true → all_chars P (Py.lstrip s) = true.
Proof.
  induction s as [|c s IH]; [done|]. intros H. cbn [Py.lstrip].
  destruct (Py.isspace c); [|done].
  cbn [all_chars] in H. apply andb_prop in H as [_ H]. by apply IH.
Qed.

Lemma all_chars_rstrip s : all_chars P s = true → all_chars P (Py.rstrip s) = true.
Proof.
  induction s as [|c s IH]; [done|]. intros H. rewrite rstrip_cons.
  cbn [all_chars] in H. apply andb_prop in H as [Hc H].
  destruct (negb (Py.truthy (Py.rstrip s)) && Py.isspace c); [done|].
  cbn [all_chars]. by rewrite Hc, IH.
Qed.

Lemma all_chars_strip s : all_chars P s = true → all_chars P (Py.strip s) = true.
Proof. intros H. by apply all_chars_rstrip, all_chars_lstrip. Qed.

Lemma all_chars_lstrip_chars s chars :
  all_chars P s = true → all_chars P (Py.lstrip_chars s chars) = true.
Proof.
  induction s as [|c s IH]; [done|]. intros H. cbn [Py.lstrip_chars].
  destruct (Py.mem_char c chars); [|done].
  cbn [all_chars] in H. apply andb_prop in H as [_ H]. by apply IH.
Qed.

Lemma all_chars_split_on sep cur s :
  all_chars P cur = true → all_chars P s = true →
  Forall (λ part, all_chars P part = true) (Py.split_on_go sep cur s).
Proof.
  revert cur. induction s as [|c s IH]; intros cur Hcur Hs; cbn [Py.split_on_go].
  { repeat constructor. by rewrite all_chars_rev. }
  cbn [all_chars] in Hs. apply andb_prop in Hs as [Hc Hs].
  destruct (Ascii.eqb c sep).
  - constructor; [by rewrite all_chars_rev|by apply IH].
  - apply IH; [|done]. cbn [all_chars]. by rewrite Hc.
Qed.

End clean_facts.

Section label_facts.

(** The pieces between the separators hold no separator. *)
Lemma split_on_no_sep sep cur s :
  all_chars (λ c, negb (Ascii.eqb c sep)) cur = true →
  Forall (λ part, all_chars (λ c, negb (Ascii.eqb c sep)) part = true)
         (Py.split_on_go sep cur s).
Proof.
  revert cur. induction s as [|c s IH]; intros cur Hcur; cbn [Py.split_on_go].
  { repeat constructor. by rewrite all_chars_rev. }
  destruct (Ascii.eqb c sep) eqn:E.
  - constructor; [by rewrite all_chars_rev|by apply IH].
  - apply IH. cbn [all_chars]. by rewrite E.
Qed.

(** The lines of a text hold no line boundary. *)
Lemma splitlines_no_linebreak cur after_cr s :
  no_linebreak cur = true →
  Forall (λ line, no_linebreak line = true) (Py.splitlines_go cur after_cr s).
Proof.
  unfold no_linebreak.
  revert cur after_cr. induction s as [|c s IH]; intros cur after_cr Hcur;
    cbn [Py.splitlines_go].
  { destruct cur; repeat constructor. by rewrite all_chars_rev. }
  destruct (after_cr && Ascii.eqb c "010"); [by apply IH|].
  destruct (Py.is_linebreak c) eqn:E.
  - constructor; [by rewrite all_chars_rev|by apply IH].
  - apply IH. cbn [all_chars]. by rewrite E.
Qed.

Lemma alias_canonical key value :
  OS_ALIASES !! key = Some value → value ∈ CANONICAL_OS.
Proof.
  intros H. apply elem_of_list_to_map_2 in H.
  unfold CANONICAL_OS. set_solver.
Qed.

Lemma normalize_all_chars P label :
  Forall (λ name, all_chars P name = true) CANONICAL_OS →
  all_chars P label = true → all_chars P (_normalize_os_label label) = true.
Proof.
  intros Hc Hl. unfold _normalize_os_label.
  destruct (Py.truthy (Py.strip label)); [|done]. cbn [negb].
  destruct (OS_ALIASES !! Py.lower (Py.strip label)) as [value|] eqn:E; cbn.
  - apply alias_canonical in E. by apply (proj1 (Forall_forall _ _) Hc).
  - by apply all_chars_strip.
Qed.

Lemma normalize_stripped label :
  Py.strip (_normalize_os_label label) = _normalize_os_label label.
Proof.
  unfold _normalize_os_label.
  destruct (Py.truthy (Py.strip label)); [|done]. cbn [negb].
  destruct (OS_ALIASES !! Py.lower (Py.strip label)) as [value|] eqn:E; cbn.
  - apply alias_canonical in E. unfold CANONICAL_OS in E.
    repeat (apply elem_of_cons in E as [->|E]; [done|]). by apply elem_of_nil in E.
  - apply strip_strip.
Qed.

Lemma declared_labels_clean comment_text prefix :
  no_linebreak comment_text = true →
  Forall clean_label (declared_labels comment_text prefix).
Proof.
  intros H. unfold declared_labels.
  set (os_string := Py.strip (Py.drop (String.length prefix) comment_text)).
  assert (Hos : no_linebreak os_string = true)
    by by apply all_chars_strip, all_chars_drop.
  pose proof (all_chars_split_on _ ","%char "" os_string eq_refl Hos) as H1.
  pose proof (split_on_no_sep ","%char "" os_string eq_refl) as H2.
  fold (Py.split_on ","%char os_string) in H1, H2.
  induction (Py.split_on ","%char os_string) as [|part parts IH]; [constructor|].
  apply Forall_cons in H1 as [Hp1 H1], H2 as [Hp2 H2].
  cbn [List.map List.filter].
  destruct (Py.truthy (_normalize_os_label part)) eqn:Ht; [|by apply IH].
  constructor; [|by apply IH].
  repeat split.
  - apply normalize_all_chars; [by repeat constructor|done].
  - apply normalize_all_chars; [by repeat constructor|done].
  - apply normalize_stripped.
  - by apply truthy_true.
Qed.

Lemma comment_text_no_linebreak line comment_text :
  no_linebreak line = true → comment_text_of line = Some comment_text →
  no_linebreak comment_text = true.
Proof.
  unfold comment_text_of. intros H E.
  repeat case_match; simplify_eq;
    by apply all_chars_strip, all_chars_lstrip_chars.
Qed.

Lemma comment_text_stripped line comment_text :
  comment_text_of line = Some comment_text → Py.strip comment_text = comment_text.
Proof.
  unfold comment_text_of. intros E.
  repeat case_match; simplify_eq; apply strip_strip.
Qed.

Lemma process_line_clean st raw :
  no_linebreak raw = true → clean_state st →
  clean_state (state_of (process_line st raw)).
Proof.
  intros Hraw (Hd & Hs & Hos).
  assert (Hline : no_linebreak (Py.strip raw) = true) by by apply all_chars_strip.
  unfold clean_state, process_line, set_description.
  repeat case_match; simplify_eq;
    cbn [state_of description os_candidates]; repeat split;
    rewrite ?strip_strip;
    try done;
    try (by apply Forall_app; split; [done|];
            eapply declared_labels_clean, comment_text_no_linebreak);
    try (by eapply comment_text_no_linebreak);
    try (by eapply comment_text_stripped);
    try (by apply all_chars_strip, all_chars_drop_last);
    try (by apply all_chars_strip, all_chars_drop_last, all_chars_strip, all_chars_drop);
    try (by apply all_chars_strip, all_chars_drop).
Qed.

Lemma scan_lines_clean st lines :
  Forall (λ raw, no_linebreak raw = true) lines → clean_state st →
  clean_state (scan_lines st lines).
Proof.
  intros Hlines. revert st. induction Hlines as [|raw lines Hraw _ IH]; intros st Hst.
  { done. }
  cbn [scan_lines]. pose proof (process_line_clean st raw Hraw Hst) as Hp.
  destruct (process_line st raw); [by apply IH|done].
Qed.

End label_facts.

(** The cells of the catalogue are clean for every file: the description
    holds no line boundary and no white space at its ends; a supported OS
    holds no line boundary and no comma, has no white space at its ends
    and is not empty. *)
Theorem metadata_cells_are_clean (path : Path) :
  let result := extract_script_metadata path in
  no_linebreak result.1 = true
  ∧ Py.strip result.1 = result.1
  ∧ Forall (λ label, no_linebreak label = true ∧ no_comma label = true
                     ∧ Py.strip label = label ∧ label ≠ "")
           result.2.
Proof.
  unfold extract_script_metadata.
  destruct (read_text path) as [text|]; cbn zeta.
  2: { repeat split; try done. by repeat constructor. }
  assert (Hc : clean_state (scan_lines initial_state (Py.splitlines text))).
  { apply scan_lines_clean; [by apply splitlines_no_linebreak|].
    repeat split. constructor. }
  destruct Hc as (Hd & Hs & Hos). unfold finish. cbn [fst snd].
  split; [|split].
  - by destruct (Py.truthy (description (scan_lines initial_state (Py.splitlines text)))).
  - by destruct (Py.truthy (description (scan_lines initial_state (Py.splitlines text)))).
  - destruct (_dedupe_preserve_order _) as [|label labels] eqn:E.
    { by repeat constructor. }
    rewrite <- E. apply Forall_forall. intros x Hx.
    apply elem_of_dedupe_loop in Hx as [Hx _].
    apply (proj1 (Forall_forall _ _) Hos x Hx).
Qed.

(** ** De-duplication, normalization and the range of the detector *)

Section projection_facts.

Lemma dedupe_loop_fixed seen items :
  NoDup items → "" ∉ items → (∀ x, x ∈ items → x ∉ seen) →
  dedupe_loop seen items = items.
Proof.
  intros Hn. revert seen. induction Hn as [|item items Hitem Hn IH];
    intros seen He Hs; [done|].
  cbn [dedupe_loop].
  assert (Py.truthy item = true) as ->.
  { apply truthy_true. intros ->. apply He. by left. }
  cbn [negb]. rewrite bool_decide_eq_false_2 by (apply Hs; by left).
  f_equal. apply IH.
  - intros H. apply He. by right.
  - intros x Hx. apply not_elem_of_union. split.
    + apply not_elem_of_singleton. by intros ->.
    + apply Hs. by right.
Qed.

Lemma dedupe_loop_sublist seen items :
  dedupe_loop seen items `sublist_of` items.
Proof.
  revert seen. induction items as [|item items IH]; intros seen; [done|].
  cbn [dedupe_loop]. repeat case_match.
  - by apply sublist_cons.
  - by apply sublist_cons.
  - by apply sublist_skip.
Qed.

Lemma string_app_assoc (a b c : string) : (a +:+ b) +:+ c = a +:+ b +:+ c.
Proof.
  induction a as [|x a IH]; [done|]. by rewrite !app_cons, IH.
Qed.

Lemma Substring_trans a b s : Substring a b → Substring b s → Substring a s.
Proof.
  intros (pre & post & ->) (pre' & post' & ->).
  exists (pre' +:+ pre), (post +:+ post').
  by rewrite !string_app_assoc.
Qed.

Lemma contains_trans s a b :
  Py.contains b a = true → Py.contains s b = true → Py.contains s a = true.
Proof. rewrite !contains_spec. apply Substring_trans. Qed.

(** The keys [pwsh] and [powershell] come after [sh], which occurs in
    both: the loop never returns their values. *)
Lemma scan_mapping_range interpreter value :
  scan_mapping mapping interpreter = Some value →
  value ∈ ["bash"; "sh"; "python3"; "python"; "node"; "ruby"; "perl"].
Proof.
  unfold mapping. cbn [scan_mapping]. intros H.
  destruct (Py.contains interpreter "bash"); [set_solver|].
  destruct (Py.contains interpreter "sh") eqn:Hsh; [set_solver|].
  destruct (Py.contains interpreter "python3"); [set_solver|].
  destruct (Py.contains interpreter "python"); [set_solver|].
  destruct (Py.contains interpreter "node"); [set_solver|].
  destruct (Py.contains interpreter "ruby"); [set_solver|].
  destruct (Py.contains interpreter "perl"); [set_solver|].
  destruct (Py.contains interpreter "pwsh") eqn:H1.
  { by rewrite (contains_trans interpreter "sh" "pwsh" eq_refl H1) in Hsh. }
  destruct (Py.contains interpreter "powershell") eqn:H2; [|done].
  by rewrite (contains_trans interpreter "sh" "powershell" eq_refl H2) in Hsh.
Qed.

Lemma executor_of_suffix_range sfx :
  executor_of_suffix sfx ∈ ["bash"; "sh"; "python3"; "node"; "ruby"; "pwsh"]
  ∧ (executor_of_suffix sfx = "pwsh" → sfx = ".ps1").
Proof.
  unfold executor_of_suffix.
  destruct (String.eqb_spec sfx ".ps1") as [->|Hps]; [split; [set_solver|done]|].
  repeat case_match; split; (set_solver || done).
Qed.

End projection_facts.

(** De-duplication leaves alone a list without duplicate and without empty
    string; applied twice it does what it does once; and what it returns
    is the list it was given with some items left out, in the same
    order. *)
Theorem dedupe_is_a_projection :
  (∀ items, NoDup items → "" ∉ items → _dedupe_preserve_order items = items)
  ∧ (∀ items,
       _dedupe_preserve_order (_dedupe_preserve_order items)
       = _dedupe_preserve_order items)
  ∧ (∀ items, _dedupe_preserve_order items `sublist_of` items).
Proof.
  assert (Hfix : ∀ items, NoDup items → "" ∉ items →
                          _dedupe_preserve_order items = items).
  { intros items Hn He. apply dedupe_loop_fixed; [done|done|set_solver]. }
  split; [done|]. split.
  - intros items. apply Hfix; [apply NoDup_dedupe_loop|].
    intros H. apply elem_of_dedupe_loop in H as (_ & H & _). done.
  - intros items. apply dedupe_loop_sublist.
Qed.

Lemma dedupe_is_a_projection_witness :
  _dedupe_preserve_order ["Linux"; "OpenWrt"; "macOS"] = ["Linux"; "OpenWrt"; "macOS"].
Proof.
  apply (proj1 dedupe_is_a_projection).
  - apply (bool_decide_unpack _). reflexivity.
  - apply (proj1 (bool_decide_eq_false _)). reflexivity.
Defined.

(** Normalizing a label twice gives what normalizing it once gives, and
    the result is a canonical name of the alias table or the label
    stripped of the white space at its ends. *)
Theorem normalize_os_label_idempotent (label : string) :
  _normalize_os_label (_normalize_os_label label) = _normalize_os_label label
  ∧ (_normalize_os_label label ∈ CANONICAL_OS
     ∨ _normalize_os_label label = Py.strip label).
Proof.
  assert (Hn : _normalize_os_label label
               = if negb (Py.truthy (Py.strip label)) then ""
                 else default (Py.strip label)
                        (OS_ALIASES !! Py.lower (Py.strip label))) by done.
  destruct (Py.truthy (Py.strip label)) eqn:Ht; cbn [negb] in Hn.
  2: { apply truthy_false in Ht. rewrite Hn, Ht. split; [done|by right]. }
  destruct (OS_ALIASES !! Py.lower (Py.strip label)) as [value|] eqn:E;
    cbn [default] in Hn; rewrite Hn.
  - pose proof (alias_canonical _ _ E) as Hc. split; [|by left].
    unfold CANONICAL_OS in Hc.
    repeat (apply elem_of_cons in Hc as [->|Hc]; [by vm_compute|]).
    by apply elem_of_nil in Hc.
  - split; [|by right]. unfold _normalize_os_label.
    by rewrite strip_strip, Ht, E.
Qed.

(** The detector returns one of eight command names, never [powershell],
    and [pwsh] only for a file with the extension [.ps1], in any case of
    the letters, whose first line names no interpreter of the table. *)
Theorem detect_executor_range (script_path : Path) :
  detect_executor script_path
  ∈ ["bash"; "sh"; "python3"; "python"; "node"; "ruby"; "perl"; "pwsh"]
  ∧ (detect_executor script_path = "pwsh" →
     Py.lower (suffix script_path) = ".ps1"
     ∧ scan_mapping mapping
         (Py.lower (shebang_interpreter (first_line_of script_path))) = None).
Proof.
  unfold detect_executor. cbv zeta.
  set (interpreter := Py.lower (shebang_interpreter (first_line_of script_path))).
  destruct (executor_of_suffix_range (Py.lower (suffix script_path))) as [Hr Hp].
  assert (Hs : ∀ value, scan_mapping mapping interpreter = Some value →
                value ∈ ["bash"; "sh"; "python3"; "python"; "node"; "ruby"; "perl"]
                ∧ value ≠ "pwsh").
  { intros value H. apply scan_mapping_range in H. split; [done|].
    intros ->. set_solver. }
  destruct (Py.truthy interpreter) eqn:Ht.
  - destruct (scan_mapping mapping interpreter) as [value|] eqn:E.
    + destruct (Hs value eq_refl) as [H1 H2]. split; [set_solver|done].
    + split; [set_solver|]. intros H. by split; [apply Hp|].
  - apply truthy_false in Ht. split; [set_solver|].
    intros H. split; [by apply Hp|]. by rewrite Ht.
Qed.

Lemma detect_executor_range_witness :
  let script := text_file "Deploy.PS1" ".PS1" "win/Deploy.PS1" ("Write-Host hello" +:+ NL) in
  Py.lower (suffix script) = ".ps1"
  ∧ scan_mapping mapping (Py.lower (shebang_interpreter (first_line_of script))) = None.
Proof.
  intros script. apply (proj2 (detect_executor_range script)). reflexivity.
Defined.

(** ** The catalogue *)

Section catalogue_facts.

Local Existing Instance path_le_trans.
Local Existing Instance path_le_total.

Lemma elem_of_sorted (entry : Path) entries : entry ∈ sorted entries ↔ entry ∈ entries.
Proof. unfold sorted. by rewrite merge_sort_Permutation. Qed.

Lemma StronglySorted_sorted entries : StronglySorted path_le (sorted entries).
Proof. apply StronglySorted_merge_sort; apply _. Qed.

Lemma elem_of_List_filter {A} (f : A → bool) l x :
  x ∈ List.filter f l ↔ x ∈ l ∧ f x = true.
Proof. by rewrite !list_elem_of_In, filter_In. Qed.

Lemma StronglySorted_List_filter {A} (R : relation A) (f : A → bool) l :
  StronglySorted R l → StronglySorted R (List.filter f l).
Proof.
  induction 1 as [|x l Hl IH Hx]; [constructor|]. cbn [List.filter].
  destruct (f x); [|done]. constructor; [done|].
  apply Forall_forall. intros y Hy. apply elem_of_List_filter in Hy as [Hy _].
  by apply (proj1 (Forall_forall _ _) Hx).
Qed.

Lemma Permutation_List_filter {A} (f : A → bool) l1 l2 :
  l1 ≡ₚ l2 → List.filter f l1 ≡ₚ List.filter f l2.
Proof.
  induction 1 as [|x l1 l2 _ IH|x y l|l1 l2 l3 _ IH1 _ IH2]; cbn [List.filter].
  - done.
  - destruct (f x); by rewrite IH.
  - destruct (f x), (f y); try done. apply perm_swap.
  - by etrans.
Qed.

(** The test of [iter_category_dirs] on one entry. *)
Lemma category_dir_test entry :
  is_dir entry
  && negb (bool_decide (name entry ∈ IGNORED_DIRS))
  && negb (Py.startswith (name entry) "." || Py.startswith (name entry) "_")
  = true
  ↔ is_dir entry = true ∧ name entry ≠ "tools"
    ∧ Py.startswith (name entry) "." = false
    ∧ Py.startswith (name entry) "_" = false.
Proof.
  rewrite !andb_true_iff, !negb_true_iff, orb_false_iff, bool_decide_eq_false.
  unfold IGNORED_DIRS. split.
  - intros [[Hd Hi] [H1 H2]]. repeat split; try done. intros E. apply Hi.
    rewrite E. set_solver.
  - intros (Hd & Ht & H1 & H2). repeat split; try done.
    rewrite !elem_of_union, !elem_of_singleton.
    intros [[[E|E]|E]|E]; try done; rewrite E in H1, H2; done.
Qed.

Lemma elem_of_iter_category_dirs iterdir REPO_ROOT entry :
  entry ∈ iter_category_dirs iterdir REPO_ROOT
  ↔ entry ∈ iterdir REPO_ROOT ∧ is_dir entry = true ∧ name entry ≠ "tools"
    ∧ Py.startswith (name entry) "." = false
    ∧ Py.startswith (name entry) "_" = false.
Proof.
  unfold iter_category_dirs.
  by rewrite elem_of_List_filter, elem_of_sorted, category_dir_test.
Qed.

Lemma iter_category_dirs_sorted iterdir REPO_ROOT :
  StronglySorted String.le (name <$> iter_category_dirs iterdir REPO_ROOT).
Proof.
  apply (StronglySorted_fmap name path_le); [done|].
  apply StronglySorted_List_filter, StronglySorted_sorted.
Qed.

Lemma is_script_test entry :
  is_script entry = true
  ↔ is_dir entry = false ∧ (suffix entry = "" ∨ suffix entry ∈ SUPPORTED_SUFFIXES).
Proof.
  unfold is_script.
  rewrite andb_true_iff, !negb_true_iff, andb_false_iff, negb_false_iff,
    truthy_false, bool_decide_eq_true.
  done.
Qed.

Lemma elem_of_iter_scripts iterdir category_dir info :
  info ∈ iter_scripts iterdir category_dir
  ↔ ∃ entry, entry ∈ iterdir category_dir ∧ is_dir entry = false
             ∧ (suffix entry = "" ∨ suffix entry ∈ SUPPORTED_SUFFIXES)
             ∧ info = script_info entry.
Proof.
  unfold iter_scripts. rewrite list_elem_of_In, in_map_iff. split.
  - intros (entry & <- & Hin).
    apply list_elem_of_In, elem_of_List_filter in Hin as [Hin Hs].
    rewrite elem_of_sorted in Hin. apply is_script_test in Hs as [Hd Hx].
    by exists entry.
  - intros (entry & Hin & Hd & Hx & ->). exists entry. split; [done|].
    apply list_elem_of_In, elem_of_List_filter. split; [by apply elem_of_sorted|].
    by apply is_script_test.
Qed.

Lemma script_info_name entry : ScriptInfo.name (script_info entry) = name entry.
Proof. unfold script_info. by destruct (extract_script_metadata entry). Qed.

Lemma script_info_path entry : ScriptInfo.path (script_info entry) = entry.
Proof. unfold script_info. by destruct (extract_script_metadata entry). Qed.

Lemma iter_scripts_sorted iterdir category_dir :
  StronglySorted String.le (ScriptInfo.name <$> iter_scripts iterdir category_dir).
Proof.
  unfold iter_scripts.
  change (List.map script_info ?l) with (script_info <$> l).
  rewrite <- list_fmap_compose.
  apply (StronglySorted_fmap _ path_le).
  - intros p q H. cbn. by rewrite !script_info_name.
  - apply StronglySorted_List_filter, StronglySorted_sorted.
Qed.

End catalogue_facts.

(** The category directories are the directories of the repository root
    whose name is not [tools] and starts with neither a dot nor an
    underscore (the other ignored names start with one of them), in the
    order of their names. *)
Theorem category_dirs_characterised (iterdir : Path → list Path) (REPO_ROOT : Path) :
  (∀ entry,
     entry ∈ iter_category_dirs iterdir REPO_ROOT
     ↔ entry ∈ iterdir REPO_ROOT ∧ is_dir entry = true ∧ name entry ≠ "tools"
       ∧ Py.startswith (name entry) "." = false
       ∧ Py.startswith (name entry) "_" = false)
  ∧ StronglySorted String.le (name <$> iter_category_dirs iterdir REPO_ROOT).
Proof.
  split; [apply elem_of_iter_category_dirs|apply iter_category_dirs_sorted].
Qed.

(** The scripts of a category are the records of the entries of its
    directory that are no directory and have no extension or one of the
    seven supported ones, spelled in lower case, in the order of their
    names. *)
Theorem listed_scripts_characterised (iterdir : Path → list Path) (category_dir : Path) :
  (∀ info,
     info ∈ iter_scripts iterdir category_dir
     ↔ ∃ entry, entry ∈ iterdir category_dir ∧ is_dir entry = false
                ∧ (suffix entry = "" ∨ suffix entry ∈ SUPPORTED_SUFFIXES)
                ∧ info = script_info entry)
  ∧ StronglySorted String.le (ScriptInfo.name <$> iter_scripts iterdir category_dir).
Proof.
  split; [apply elem_of_iter_scripts|apply iter_scripts_sorted].
Qed.

(** The catalogue is ordered at both levels, and each script stands in
    the category of the directory that holds it: categories come in the
    order of their names, the scripts of each category in the order of
    theirs, and the path of a script is an entry of the directory of its
    category. *)
Theorem catalogue_is_ordered (iterdir : Path → list Path) (REPO_ROOT : Path) :
  StronglySorted String.le (Category.name <$> build_categories iterdir REPO_ROOT)
  ∧ (∀ category,
       category ∈ build_categories iterdir REPO_ROOT →
       Category.name category = name (Category.path category)
       ∧ Category.path category ∈ iterdir REPO_ROOT
       ∧ StronglySorted String.le (ScriptInfo.name <$> Category.scripts category)
       ∧ ∀ script, script ∈ Category.scripts category →
                   ScriptInfo.path script ∈ iterdir (Category.path category)
                   ∧ ScriptInfo.name script = name (ScriptInfo.path script)).
Proof.
  unfold build_categories. split.
  - change (List.map ?f ?l) with (f <$> l). rewrite <- list_fmap_compose.
    apply iter_category_dirs_sorted.
  - intros category Hc. apply list_elem_of_In, in_map_iff in Hc as (d & <- & Hd).
    apply list_elem_of_In, elem_of_iter_category_dirs in Hd as (Hd & _).
    cbn. repeat split; try done.
    + apply iter_scripts_sorted.
    + apply elem_of_iter_scripts in H as (entry & He & _ & _ & ->).
      by rewrite script_info_path.
    + apply elem_of_iter_scripts in H as (entry & He & _ & _ & ->).
      by rewrite script_info_name, script_info_path.
Qed.

Lemma catalogue_is_ordered_witness :
  let run := text_file "run.sh" ".sh" "net/run.sh" "# Run" in
  let dns := text_file "dns.py" ".py" "net/dns.py" "# Platform: macOS" in
  let net := directory "net" "net" in
  let sys := directory "sys" "sys" in
  let listing p :=
    if is_dir p then if String.eqb (name p) "net" then [run; dns] else [sys; net]
    else [] in
  let root := directory "" "." in
  let category :=
    {| Category.name := "net"; Category.path := net;
       Category.scripts := [script_info dns; script_info run] |} in
  Category.name category = name (Category.path category)
  ∧ Category.path category ∈ listing root
  ∧ StronglySorted String.le (ScriptInfo.name <$> Category.scripts category)
  ∧ ∀ script, script ∈ Category.scripts category →
              ScriptInfo.path script ∈ listing (Category.path category)
              ∧ ScriptInfo.name script = name (ScriptInfo.path script).
Proof.
  intros run dns net sys listing root category.
  apply (proj2 (catalogue_is_ordered listing root) category).
  apply list_elem_of_In. vm_compute. left. reflexivity.
Defined.

(** ** Files of the repository root *)

Section root_facts.

Local Existing Instance path_le_trans.
Local Existing Instance path_le_total.

Lemma List_filter_implies {A} (f g : A → bool) l :
  (∀ x, g x = true → f x = true) →
  List.filter g l = List.filter g (List.filter f l).
Proof.
  intros H. induction l as [|x l IH]; [done|]. cbn [List.filter].
  destruct (g x) eqn:Hg.
  - rewrite (H x Hg). cbn [List.filter]. by rewrite Hg, IH.
  - destruct (f x); cbn [List.filter]; by rewrite ?Hg, IH.
Qed.

Lemma NoDup_fmap_List_filter {A B} (h : A → B) (f : A → bool) l :
  NoDup (h <$> l) → NoDup (h <$> List.filter f l).
Proof.
  induction l as [|x l IH]; [done|]. cbn [List.filter]. rewrite fmap_cons.
  intros Hn. apply NoDup_cons in Hn as [Hx Hn].
  destruct (f x); [|by apply IH]. rewrite fmap_cons. apply NoDup_cons.
  split; [|by apply IH]. intros Hin. apply Hx.
  apply list_elem_of_fmap in Hin as (y & -> & Hy).
  apply elem_of_List_filter in Hy as [Hy _]. by apply list_elem_of_fmap_2.
Qed.

(** Sorting and then keeping the entries that pass a test depends on the
    entries that pass the test only. *)
Lemma filter_sorted_Permutation (f : Path → bool) l1 l2 :
  List.filter f l1 ≡ₚ List.filter f l2 →
  NoDup (name <$> List.filter f l1) →
  List.filter f (sorted l1) = List.filter f (sorted l2).
Proof.
  intros Hp Hn.
  assert (H1 : List.filter f (sorted l1) ≡ₚ List.filter f l1)
    by (apply Permutation_List_filter, merge_sort_Permutation).
  assert (H2 : List.filter f (sorted l2) ≡ₚ List.filter f l2)
    by (apply Permutation_List_filter, merge_sort_Permutation).
  apply (StronglySorted_unique_strong path_le).
  - intros p q Hp1 Hq2 Hpq Hqp.
    rewrite H1 in Hp1. rewrite H2, <- Hp in Hq2.
    assert (Hname : name p = name q) by (by apply (anti_symm String.le)).
    apply list_elem_of_lookup in Hp1 as [i Hi], Hq2 as [j Hj].
    assert (i = j) as ->.
    { apply (NoDup_lookup _ i j (name p) Hn); rewrite list_lookup_fmap.
      - by rewrite Hi.
      - by rewrite Hj, Hname. }
    congruence.
  - apply StronglySorted_List_filter, StronglySorted_sorted.
  - apply StronglySorted_List_filter, StronglySorted_sorted.
  - by rewrite H1, H2.
Qed.

End root_facts.

(** The entries of the repository root that are no directory, the README
    itself among them, have no effect on the document: two listings whose
    roots hold the same directories, under pairwise distinct names, and
    which list each of these directories alike, give the same document. *)
Theorem root_files_do_not_matter
    (dedent : string → string) (REPO_ROOT : Path)
    (iterdir1 iterdir2 : Path → list Path) :
  List.filter is_dir (iterdir1 REPO_ROOT) ≡ₚ List.filter is_dir (iterdir2 REPO_ROOT) →
  NoDup (name <$> List.filter is_dir (iterdir1 REPO_ROOT)) →
  (∀ directory,
     directory ∈ iterdir1 REPO_ROOT → is_dir directory = true →
     iterdir1 directory = iterdir2 directory) →
  generate iterdir1 dedent REPO_ROOT = generate iterdir2 dedent REPO_ROOT.
Proof.
  intros Hp Hn Hsame. unfold generate. f_equal. unfold build_categories.
  assert (Hdirs : iter_category_dirs iterdir1 REPO_ROOT
                  = iter_category_dirs iterdir2 REPO_ROOT).
  { unfold iter_category_dirs.
    match goal with |- List.filter ?f _ = _ => set (F := f) end.
    assert (HF : ∀ entry, F entry = true → is_dir entry = true).
    { intros entry H. unfold F in H. by destruct (is_dir entry). }
    apply filter_sorted_Permutation.
    - rewrite (List_filter_implies is_dir F (iterdir1 REPO_ROOT) HF),
        (List_filter_implies is_dir F (iterdir2 REPO_ROOT) HF).
      by apply Permutation_List_filter.
    - rewrite (List_filter_implies is_dir F (iterdir1 REPO_ROOT) HF).
      by apply NoDup_fmap_List_filter. }
  rewrite <- Hdirs. apply map_ext_in. intros directory Hd.
  apply list_elem_of_In, elem_of_iter_category_dirs in Hd as (Hin & Hdir & _).
  unfold iter_scripts. by rewrite (Hsame directory Hin Hdir).
Qed.

Lemma root_files_do_not_matter_witness :
  let run := text_file "run.sh" ".sh" "net/run.sh" "# Run" in
  let net := directory "net" "net" in
  let readme := text_file "README.md" ".md" "README.md" "# monlor/scripts" in
  let before p := if String.eqb (name p) "net" then [run] else [net] in
  let after p := if String.eqb (name p) "net" then [run] else [readme; net] in
  let root := directory "" "." in
  generate before (λ text, text) root = generate after (λ text, text) root.
Proof.
  intros run net readme before after root.
  apply (root_files_do_not_matter (λ text, text) root before after).
  - reflexivity.
  - apply (bool_decide_unpack _). reflexivity.
  - intros directory Hin _. apply list_elem_of_singleton in Hin as ->. reflexivity.
Defined.

(** ** The document and check mode *)

Section document_facts.

Lemma app_truthy a b : Py.truthy b = true → Py.truthy (a +:+ b) = true.
Proof. intros H. destruct a; [done|]. by rewrite app_cons. Qed.

Lemma translate_newlines_fixed s :
  all_chars (λ c, negb (Ascii.eqb c "013")) s = true →
  translate_newlines false s = s.
Proof.
  induction s as [|c s IH]; [done|]. cbn [all_chars translate_newlines andb].
  intros H. apply andb_prop in H as [Hc H]. apply negb_true_iff in Hc.
  by rewrite Hc, IH.
Qed.

Lemma replace_pipe_head s :
  Py.startswith (Py.replace "|" "\|" s) "|" = false.
Proof.
  destruct s as [|c s]; [done|]. cbn [Py.replace].
  destruct (Ascii.eqb c "|") eqn:E; [done|].
  rewrite startswith_cons. by rewrite Ascii.eqb_sym, E.
Qed.

Lemma lower_char_not_capital c :
  let n := nat_of_ascii (Py.lower_char c) in (65 <=? n) && (n <=? 90) = false.
Proof. by destruct c as [[] [] [] [] [] [] [] []]. Qed.

Lemma build_readme_truthy dedent categories :
  build_readme dedent categories ≠ "".
Proof. unfold build_readme. cbv zeta. by apply truthy_true, app_truthy. Qed.

Lemma replace_pipe_injective s1 s2 :
  Py.replace "|" "\|" s1 = Py.replace "|" "\|" s2 → s1 = s2.
Proof.
  revert s2. induction s1 as [|c1 s1 IH]; intros [|c2 s2]; cbn [Py.replace].
  - done.
  - by destruct (Ascii.eqb c2 "|").
  - by destruct (Ascii.eqb c1 "|").
  - destruct (Ascii.eqb_spec c1 "|") as [->|H1],
      (Ascii.eqb_spec c2 "|") as [->|H2]; rewrite ?app_cons, ?app_empty_l;
      intros H.
    + injection H as H. f_equal. by apply IH.
    + injection H as _ H. pose proof (replace_pipe_head s2) as Hh.
      rewrite <- H in Hh. by rewrite startswith_cons, Ascii.eqb_refl in Hh.
    + injection H as _ H. pose proof (replace_pipe_head s1) as Hh.
      rewrite H in Hh. by rewrite startswith_cons, Ascii.eqb_refl in Hh.
    + injection H as -> H. f_equal. by apply IH.
Qed.

Lemma anchor_chars s :
  all_chars (λ c, negb (Ascii.eqb c " ")
                  && negb ((65 <=? nat_of_ascii c) && (nat_of_ascii c <=? 90)))
    (Py.replace " " "-" (Py.lower s)) = true.
Proof.
  induction s as [|c s IH]; [done|]. cbn [Py.lower Py.replace].
  destruct (Ascii.eqb (Py.lower_char c) " ") eqn:E.
  - rewrite app_cons, app_empty_l. cbn [all_chars]. by rewrite IH.
  - cbn [all_chars]. rewrite IH, E.
    by rewrite (lower_char_not_capital c).
Qed.

End document_facts.

(** The document is never empty and ends with exactly one line feed: the
    text before that line feed has no white space at its ends. *)
Theorem readme_ends_with_one_newline
    (dedent : string → string) (categories : list Category.t) :
  build_readme dedent categories ≠ ""
  ∧ ∃ body, build_readme dedent categories = body +:+ NL
            ∧ Py.strip body = body.
Proof.
  split; [apply build_readme_truthy|].
  unfold build_readme. cbv zeta. eexists. split; [done|]. apply strip_strip.
Qed.

(** Check mode never writes.  It reports that the README needs
    regeneration when the file is missing and when the text read from it,
    carriage returns translated, differs from the generated document; it
    reports that the README is up to date when the two are equal; and it
    fails on a README that is not valid UTF-8, which a run without the
    flag overwrites. *)
Theorem check_mode_reports
    (iterdir : Path → list Path) (dedent : string → string) (REPO_ROOT : Path) :
  let content := generate iterdir dedent REPO_ROOT in
  main iterdir dedent REPO_ROOT true Missing
  = Printed "README needs regeneration. Run without --check to update it." Missing
  ∧ (∀ stored,
       translate_newlines false stored = content →
       main iterdir dedent REPO_ROOT true (Stored stored)
       = Printed "README is up to date." (Stored stored))
  ∧ (∀ stored,
       translate_newlines false stored ≠ content →
       main iterdir dedent REPO_ROOT true (Stored stored)
       = Printed "README needs regeneration. Run without --check to update it."
           (Stored stored))
  ∧ main iterdir dedent REPO_ROOT true Undecodable = UnicodeDecodeError
  ∧ main iterdir dedent REPO_ROOT false Undecodable
    = Printed "README generated." (Stored content).
Proof.
  intros content. unfold main. fold (generate iterdir dedent REPO_ROOT).
  fold content. cbn [disk_exists disk_read_text].
  split; [|split; [|split; [|done]]].
  - destruct (String.eqb_spec "" content) as [E|]; [|done].
    symmetry in E.
    by destruct (build_readme_truthy dedent (build_categories iterdir REPO_ROOT)).
  - intros stored ->. by rewrite String.eqb_refl.
  - intros stored H. by rewrite (proj2 (String.eqb_neq _ _) H).
Qed.

Lemma check_mode_reports_witness :
  let run := text_file "run.sh" ".sh" "net/run.sh" "# Run" in
  let net := directory "net" "net" in
  let listing p := if String.eqb (name p) "net" then [run] else [net] in
  let root := directory "" "." in
  let CR := String "013"%char "" in
  let stored :=
    Py.join (CR +:+ NL)
      (Py.split_on "010"%char (generate listing (λ text, text) root)) in
  stored ≠ generate listing (λ text, text) root
  ∧ main listing (λ text, text) root true (Stored stored)
    = Printed "README is up to date." (Stored stored).
Proof.
  intros run net listing root CR stored.
  split; [by vm_compute|].
  apply (proj1 (proj2 (check_mode_reports listing (λ text, text) root))).
  by vm_compute.
Defined.

(** Writing and then checking agree: when the generated document holds no
    carriage return, a run without the flag stores the document, whatever
    the README was, and a run in check mode on the same tree then reports
    that the README is up to date and leaves it as it is. *)
Theorem write_then_check_is_up_to_date
    (iterdir : Path → list Path) (dedent : string → string) (REPO_ROOT : Path)
    (README : disk_file) :
  let content := generate iterdir dedent REPO_ROOT in
  all_chars (λ c, negb (Ascii.eqb c "013")) content = true →
  main iterdir dedent REPO_ROOT false README
  = Printed "README generated." (Stored content)
  ∧ main iterdir dedent REPO_ROOT true (Stored content)
    = Printed "README is up to date." (Stored content).
Proof.
  intros content H. unfold main, write_readme.
  fold (generate iterdir dedent REPO_ROOT). fold content.
  cbn [disk_exists disk_read_text].
  by rewrite (translate_newlines_fixed content H), String.eqb_refl.
Qed.

Lemma write_then_check_is_up_to_date_witness :
  let run := text_file "run.sh" ".sh" "net/run.sh" "# Run" in
  let net := directory "net" "net" in
  let listing p := if String.eqb (name p) "net" then [run] else [net] in
  let root := directory "" "." in
  let content := generate listing (λ text, text) root in
  main listing (λ text, text) root false Undecodable
  = Printed "README generated." (Stored content)
  ∧ main listing (λ text, text) root true (Stored content)
    = Printed "README is up to date." (Stored content).
Proof.
  intros run net listing root content.
  apply (write_then_check_is_up_to_date listing (λ text, text) root Undecodable).
  by vm_compute.
Defined.

(** The escape of the vertical bar in a description loses nothing:
    different descriptions give different table cells, and no cell starts
    with a bar. *)
Theorem description_escape_is_injective (description1 description2 : string) :
  (Py.replace "|" "\|" description1 = Py.replace "|" "\|" description2 →
   description1 = description2)
  ∧ Py.startswith (Py.replace "|" "\|" description1) "|" = false.
Proof. split; [apply replace_pipe_injective|apply replace_pipe_head]. Qed.

Lemma description_escape_is_injective_witness :
  "a|b" = "a|b"
  ∧ Py.startswith (Py.replace "|" "\|" "|| true") "|" = false.
Proof.
  split.
  - apply (proj1 (description_escape_is_injective "a|b" "a|b")). reflexivity.
  - apply (proj2 (description_escape_is_injective "|| true" "")).
Defined.

(** The anchor of a category holds no space and no capital letter from A
    to Z. *)
Theorem anchor_has_no_space_and_no_capital (category : Category.t) :
  all_chars (λ c, negb (Ascii.eqb c " ")
                  && negb ((65 <=? nat_of_ascii c) && (nat_of_ascii c <=? 90)))
    (Category.anchor category) = true.
Proof. apply anchor_chars. Qed.
